(** * Seller lifecycle of the e-commerce backend: OTP verification,
    admin transitions, notification retry, approval gate and withdrawals.

    Shallow embedding of [routes/seller.js] (with the OTP service appended
    to it), [routes/adminSeller.js], [middleware/sellerAuth.js],
    [models/Seller.js] and the e-mail service ([unnamed/part_002]).

    Conventions of the embedding:
    - a JavaScript [Date] is its millisecond timestamp, a [Z];
    - money amounts (JSON numbers) are modelled as [Z] (integral units);
    - a field that may be [null] or [undefined] is an [option];
    - every request handler is a function from the documents it reads
      (the result of [findOne]/[findById]) and the request to a [Response]
      and the document it saves, [None] when it saves nothing;
    - [seller.save()] runs the two pre-save hooks of the schema: the
      password is re-hashed only when it was modified, and [updatedAt] is
      set to the current time;
    - a stored seller holds the schema's paths only (strict mode); the
      properties the handlers set besides them live in the in-memory
      document ([Doc]) and are never stored. *)

From Stdlib Require Import String Ascii List ZArith Bool Lia DecimalString.
From Stdlib Require DecimalPos.
From Stdlib Require Import Permutation Sorting.Sorted.
Import ListNotations.
Open Scope string_scope.
Open Scope Z_scope.

(** ** JSON responses *)

Inductive JsonVal :=
| JNum (n : Z)
| JStr (s : string)
| JBool (b : bool)
| JNull.

(** [res.status(code).json({message, ...extra})]; [res.json] is code 200. *)
Record Response := mkResponse {
  res_code : Z;
  res_message : string;
  res_extra : list (string * JsonVal)
}.

Definition json (code : Z) (msg : string) : Response := mkResponse code msg [].

(** ** The Seller document ([models/Seller.js]) *)

Record BankDetails := mkBankDetails {
  bankName : string;
  accountHolder : string;
  accountNumber : string;
  ifscCode : string
}.

Record Withdrawal := mkWithdrawal {
  w_amount : Z;
  w_requestDate : Z;
  w_status : string;
  w_bankDetails : BankDetails;
  w_completedDate : option Z;
  w_notes : option string
}.

(** The OTP object [{code, expiresAt, attempts}] the handlers assign to
    [seller.emailVerificationOTP]; each field may be absent or [null]
    ([None]). *)
Record OTPRecord := mkOTP {
  otp_code : option string;
  otp_expiresAt : option Z;
  otp_attempts : option Z
}.

Record Seller := mkSeller {
  _id : nat;
  name : string;
  email : string;
  phone : string;
  password : string;
  aadhaarNumber : string;
  aadhaarDocument : string;
  bankDetails : BankDetails;
  status : string;
  isApproved : bool;
  rejectionReason : option string;
  approvedAt : option Z;
  totalEarnings : Z;
  totalOrders : Z;
  totalProducts : Z;
  rating : Z;
  reviewCount : Z;
  withdrawals : list Withdrawal;
  createdAt : Z;
  updatedAt : Z
}.

(** Field assignments [seller.f = v]. *)
Definition set_status (v : string) (s : Seller) : Seller :=
  mkSeller s.(_id) s.(name) s.(email) s.(phone) s.(password) s.(aadhaarNumber)
    s.(aadhaarDocument) s.(bankDetails) v s.(isApproved) s.(rejectionReason)
    s.(approvedAt) s.(totalEarnings) s.(totalOrders) s.(totalProducts) s.(rating)
    s.(reviewCount) s.(withdrawals) s.(createdAt) s.(updatedAt).

Definition set_isApproved (v : bool) (s : Seller) : Seller :=
  mkSeller s.(_id) s.(name) s.(email) s.(phone) s.(password) s.(aadhaarNumber)
    s.(aadhaarDocument) s.(bankDetails) s.(status) v s.(rejectionReason)
    s.(approvedAt) s.(totalEarnings) s.(totalOrders) s.(totalProducts) s.(rating)
    s.(reviewCount) s.(withdrawals) s.(createdAt) s.(updatedAt).

Definition set_rejectionReason (v : option string) (s : Seller) : Seller :=
  mkSeller s.(_id) s.(name) s.(email) s.(phone) s.(password) s.(aadhaarNumber)
    s.(aadhaarDocument) s.(bankDetails) s.(status) s.(isApproved) v
    s.(approvedAt) s.(totalEarnings) s.(totalOrders) s.(totalProducts) s.(rating)
    s.(reviewCount) s.(withdrawals) s.(createdAt) s.(updatedAt).

Definition set_approvedAt (v : option Z) (s : Seller) : Seller :=
  mkSeller s.(_id) s.(name) s.(email) s.(phone) s.(password) s.(aadhaarNumber)
    s.(aadhaarDocument) s.(bankDetails) s.(status) s.(isApproved) s.(rejectionReason)
    v s.(totalEarnings) s.(totalOrders) s.(totalProducts) s.(rating)
    s.(reviewCount) s.(withdrawals) s.(createdAt) s.(updatedAt).

Definition set_withdrawals (v : list Withdrawal) (s : Seller) : Seller :=
  mkSeller s.(_id) s.(name) s.(email) s.(phone) s.(password) s.(aadhaarNumber)
    s.(aadhaarDocument) s.(bankDetails) s.(status) s.(isApproved) s.(rejectionReason)
    s.(approvedAt) s.(totalEarnings) s.(totalOrders) s.(totalProducts) s.(rating)
    s.(reviewCount) v s.(createdAt) s.(updatedAt).

Definition set_updatedAt (v : Z) (s : Seller) : Seller :=
  mkSeller s.(_id) s.(name) s.(email) s.(phone) s.(password) s.(aadhaarNumber)
    s.(aadhaarDocument) s.(bankDetails) s.(status) s.(isApproved) s.(rejectionReason)
    s.(approvedAt) s.(totalEarnings) s.(totalOrders) s.(totalProducts) s.(rating)
    s.(reviewCount) s.(withdrawals) s.(createdAt) v.

(** [seller.save()] on a document whose password was not modified: the
    hashing hook returns early, the second hook stamps [updatedAt]. *)
Definition save (now : Z) (s : Seller) : Seller := set_updatedAt now s.

(** JavaScript truthiness of an optional string ([""] is falsy). *)
Definition truthy_str (o : option string) : bool :=
  match o with
  | None => false
  | Some v => negb (String.eqb v "")
  end.

(** JavaScript truthiness of a property that may be [undefined]. *)
Definition truthy_bool (o : option bool) : bool :=
  match o with Some true => true | _ => false end.

(** A key of [res.json({...})]: [JSON.stringify] leaves out a property
    whose value is [undefined]. *)
Definition opt_key (k : string) (v : option JsonVal) : list (string * JsonVal) :=
  match v with Some x => [(k, x)] | None => [] end.

(** ** The in-memory document and the two properties outside the schema

    The handlers of [routes/seller.js] read and assign [isEmailVerified]
    and [emailVerificationOTP], two paths [models/Seller.js] does not
    declare. Under Mongoose's default strict mode, [new Seller({...,
    isEmailVerified: false})] drops the unknown key, an assignment
    [seller.emailVerificationOTP = v] only sets a plain property of the
    in-memory object, and [seller.save()] writes the schema paths alone.
    A [Doc] is the in-memory document: the stored [Seller] and the two
    plain properties, [None] for [undefined]. *)
Record Doc := mkDoc {
  doc : Seller;
  doc_isEmailVerified : option bool;
  doc_emailVerificationOTP : option OTPRecord
}.

(** The document [findOne] or [new Seller({...})] returns: neither
    property is set. *)
Definition load (s : Seller) : Doc := mkDoc s None None.

(** [seller.isEmailVerified = v] and [seller.emailVerificationOTP = v]. *)
Definition set_doc_isEmailVerified (v : bool) (d : Doc) : Doc :=
  mkDoc d.(doc) (Some v) d.(doc_emailVerificationOTP).

Definition set_doc_emailVerificationOTP (v : OTPRecord) (d : Doc) : Doc :=
  mkDoc d.(doc) d.(doc_isEmailVerified) (Some v).

(** [seller.save()] of an in-memory document: what is stored. *)
Definition save_doc (now : Z) (d : Doc) : Seller := save now d.(doc).

(** ** OTP generator and validator (the [otpService] code of [seller.js]) *)

Module Otp.

(** [generateOTP]: [Math.floor(100000 + Math.random() * 900000).toString()];
    the random draw is the integer [r], in [0, 900000). *)
Definition generateOTP (r : Z) : string :=
  NilZero.string_of_int (Z.to_int (100000 + r)).

(** [generateOTPWithExpiry]: [{code, expiresAt: now + m*60*1000}]; the
    object has no [attempts] field. *)
Definition generateOTPWithExpiry (expiryMinutes : Z) (now r : Z) : OTPRecord :=
  mkOTP (Some (generateOTP r)) (Some (now + expiryMinutes * 60 * 1000)) None.

Inductive OtpResult := NoOtpFound | Expired | InvalidOtp | OtpValid.

Definition valid (v : OtpResult) : bool :=
  match v with OtpValid => true | _ => false end.

Definition otp_message (v : OtpResult) : string :=
  match v with
  | NoOtpFound => "No OTP found for this user"
  | Expired => "OTP has expired"
  | InvalidOtp => "Invalid OTP"
  | OtpValid => "OTP is valid"
  end.

(** [new Date(storedOTP.expiresAt)] of a [null] expiry is the epoch. *)
Definition expiry_ms (o : OTPRecord) : Z :=
  match o.(otp_expiresAt) with Some t => t | None => 0 end.

(** [validateOTP(storedOTP, providedOTP)], checked at time [now]. *)
Definition validateOTP (stored : option OTPRecord) (provided : string) (now : Z)
  : OtpResult :=
  match stored with
  | None => NoOtpFound
  | Some o =>
      if negb (truthy_str o.(otp_code)) then NoOtpFound
      else if now >? expiry_ms o then Expired
      else match o.(otp_code) with
           | Some c => if String.eqb c provided then OtpValid else InvalidOtp
           | None => InvalidOtp
           end
  end.

(** [if (!attempts) attempts = 0; attempts += 1]. *)
Definition next_attempts (a : option Z) : Z :=
  match a with
  | None => 1
  | Some n => (if n =? 0 then 0 else n) + 1
  end.

Definition set_attempts (n : Z) (o : OTPRecord) : OTPRecord :=
  mkOTP o.(otp_code) o.(otp_expiresAt) (Some n).

(** POST /verify-email: [found] is [Seller.findOne({email})]. The handler
    works on the loaded document, whose [isEmailVerified] and
    [emailVerificationOTP] are [undefined]; what it saves is the stored
    part of the document. *)
Definition verify_email (req_email req_otp : option string) (found : option Seller)
  (now : Z) : Response * option Seller :=
  if negb (truthy_str req_email) || negb (truthy_str req_otp) then
    (json 400 "Email and OTP are required", None)
  else
  let provided := match req_otp with Some p => p | None => "" end in
  match found with
  | None => (json 404 "Seller not found", None)
  | Some stored =>
    let seller := load stored in
    if truthy_bool seller.(doc_isEmailVerified) then
      (json 400 "Email is already verified", None)
    else
    let v := validateOTP seller.(doc_emailVerificationOTP) provided now in
    if negb (valid v) then
      match seller.(doc_emailVerificationOTP) with
      | None =>
          (* [seller.emailVerificationOTP.attempts] throws a TypeError *)
          (json 500 "Error verifying email", None)
      | Some o =>
          let n := next_attempts o.(otp_attempts) in
          let seller' := set_doc_emailVerificationOTP (set_attempts n o) seller in
          if n >=? 5 then
            (json 429 "Too many failed attempts. Please request a new OTP.",
             Some (save_doc now seller'))
          else
            (mkResponse 400 (otp_message v) [("attempts", JNum n)],
             Some (save_doc now seller'))
      end
    else
      let seller' := set_doc_emailVerificationOTP (mkOTP None None (Some 0))
                       (set_doc_isEmailVerified true seller) in
      (mkResponse 200 "Email verified successfully! Please wait for admin approval."
         (opt_key "isEmailVerified" (option_map JBool seller'.(doc_isEmailVerified))
          ++ [("status", JStr (save_doc now seller').(status))])%list,
       Some (save_doc now seller'))
  end.

(** POST /send-otp: a fresh OTP (the code [generateOTP r], e-mailed to the
    seller) is assigned to the loaded document, which is then saved; the
    e-mail send outcome [sent] decides between 200 and 500 (the save comes
    first). *)
Definition send_otp (req_email : option string) (found : option Seller) (now r : Z)
  (sent : bool) : Response * option Seller :=
  if negb (truthy_str req_email) then (json 400 "Email is required", None)
  else match found with
  | None => (json 404 "Seller not found", None)
  | Some stored =>
    let seller := load stored in
    if truthy_bool seller.(doc_isEmailVerified) then
      (json 400 "Email is already verified", None)
    else
    let otpData := generateOTPWithExpiry 10 now r in
    let seller' := set_doc_emailVerificationOTP otpData seller in
    let saved := save_doc now seller' in
    if sent then (mkResponse 200 "OTP sent successfully to your email"
                    [("email", JStr saved.(email))], Some saved)
    else (json 500 "Error sending OTP", Some saved)
  end.

End Otp.

(** ** Notification sender ([unnamed/part_002], the e-mail service) *)

Module Notify.

(** A provider error: [error.message || ""] and [error.code || ""]. *)
Record ProviderError := mkErr { err_message : string; err_code : string }.

(** Outcome of one call to the provider's [users.messages.send]. *)
Inductive Outcome := Delivered | Failed (e : ProviderError).

(** The provider, as the outcome of its [k]-th call within one send. *)
Definition Provider := nat -> Outcome.

(** [haystack.includes(needle)]. *)
Fixpoint includes (haystack needle : string) : bool :=
  String.prefix needle haystack ||
  match haystack with
  | EmptyString => false
  | String _ rest => includes rest needle
  end.

Definition isNetworkError (e : ProviderError) : bool :=
  includes e.(err_message) "ETIMEDOUT" ||
  includes e.(err_message) "ECONNREFUSED" ||
  includes e.(err_message) "ENOTFOUND" ||
  includes e.(err_message) "socket hang up" ||
  String.eqb e.(err_code) "ETIMEDOUT" ||
  String.eqb e.(err_code) "ECONNREFUSED" ||
  String.eqb e.(err_code) "ENOTFOUND".

(** What a send returns ([Sent]), throws, or [undefined] when the retry
    loop runs zero times. *)
Inductive SendResult := Sent | Thrown (e : ProviderError) | Undefined.

(** The observable trace of a send: its result, the outcome of each call
    of [fn] in order, and the backoff delays slept between calls. *)
Record SendTrace := mkTrace {
  result : SendResult;
  outcomes : list Outcome;
  delays : list Z
}.

Definition delivered (o : Outcome) : bool :=
  match o with Delivered => true | Failed _ => false end.

(** Number of successful deliveries observed in a trace. *)
Definition deliveries (t : SendTrace) : nat :=
  length (filter delivered t.(outcomes)).

(** The loop of [retryWithBackoff] from [attempt] on; [fuel] is the number
    of iterations left, [maxRetries - attempt + 1]. *)
Fixpoint retry_go (fn : Provider) (maxRetries : nat) (delayMs : Z)
  (attempt fuel : nat) : SendTrace :=
  match fuel with
  | O => mkTrace Undefined [] []
  | S fuel' =>
      match fn attempt with
      | Delivered => mkTrace Sent [Delivered] []
      | Failed e =>
          if Nat.eqb attempt maxRetries || negb (isNetworkError e) then
            mkTrace (Thrown e) [Failed e] []
          else
            let delay := delayMs * 2 ^ (Z.of_nat attempt - 1) in
            let t := retry_go fn maxRetries delayMs (S attempt) fuel' in
            mkTrace t.(result) (Failed e :: t.(outcomes)) (delay :: t.(delays))
      end
  end.

(** [retryWithBackoff(fn, maxRetries, delayMs)]. *)
Definition retryWithBackoff (fn : Provider) (maxRetries : nat) (delayMs : Z)
  : SendTrace :=
  retry_go fn maxRetries delayMs 1 maxRetries.

(** The process environment the sender reads. *)
Record MailEnv := mkEnv {
  ADMIN_EMAIL : option string;
  oauth_configured : bool   (* CLIENT_ID, CLIENT_SECRET, REDIRECT_URI, REFRESH_TOKEN *)
}.

Definition missing_admin_email : ProviderError :=
  mkErr "Missing ADMIN_EMAIL environment variable" "".

Definition missing_oauth : ProviderError :=
  mkErr "Missing OAuth2 environment variables: CLIENT_ID, CLIENT_SECRET, REDIRECT_URI, or REFRESH_TOKEN" "".

(** The function retried by [sendEmailViaGmailAPI]: [getGmailClient()]
    throws when OAuth is not configured, otherwise the provider is called. *)
Definition gmail_send (env : MailEnv) (p : Provider) : Provider :=
  fun k => if env.(oauth_configured) then p k else Failed missing_oauth.

(** [sendEmailViaGmailAPI(to, subject, html)]: retried with 3 attempts and a
    2000 ms base delay. *)
Definition sendEmailViaGmailAPI (env : MailEnv) (p : Provider) : SendTrace :=
  if negb (truthy_str env.(ADMIN_EMAIL)) then mkTrace (Thrown missing_admin_email) [] []
  else retryWithBackoff (gmail_send env p) 3 2000.

Definition sendApprovalEmail (env : MailEnv) (p : Provider) : SendTrace :=
  sendEmailViaGmailAPI env p.

Definition sendRejectionEmail (env : MailEnv) (p : Provider) : SendTrace :=
  sendEmailViaGmailAPI env p.

(** [sendOTPEmail(to, subject, html)]: a single provider call, no retry. *)
Definition sendOTPEmail (env : MailEnv) (p : Provider) : SendTrace :=
  if negb (truthy_str env.(ADMIN_EMAIL)) then mkTrace (Thrown missing_admin_email) [] []
  else if negb env.(oauth_configured) then mkTrace (Thrown missing_oauth) [] []
  else match p 1%nat with
       | Delivered => mkTrace Sent [Delivered] []
       | Failed e => mkTrace (Thrown e) [Failed e] []
       end.

(** [sendOTPToEmail(email, otp, userName)] of the OTP service: builds the
    HTML body and awaits [sendOTPEmail], rethrowing its error. *)
Definition sendOTPToEmail (env : MailEnv) (p : Provider) : SendTrace :=
  sendOTPEmail env p.

Definition succeeded (t : SendTrace) : bool :=
  match t.(result) with Sent => true | _ => false end.

End Notify.

(** ** Admin review surface ([routes/adminSeller.js]); the requests are
    those that passed [requireAdminAuth]. [found] is
    [Seller.findById(req.params.id)]. *)

Module Admin.
Import Notify.

(** POST /:id/approve. The approval e-mail is sent after the save, inside
    a try/catch that only logs. *)
Definition approve (found : option Seller) (now : Z) (env : MailEnv) (p : Provider)
  : Response * option Seller :=
  match found with
  | None => (json 404 "Seller not found", None)
  | Some seller =>
      let seller' := save now (set_rejectionReason None (set_approvedAt (Some now)
                       (set_isApproved true (set_status "approved" seller)))) in
      let resp := mkResponse 200 "Seller approved successfully"
                    [("status", JStr seller'.(status)); ("isApproved", JBool seller'.(isApproved))] in
      match (sendApprovalEmail env p).(result) with
      | Thrown _ => (resp, Some seller')   (* "Don't fail the approval if email fails" *)
      | _ => (resp, Some seller')
      end
  end.

(** POST /:id/reject with body [{reason}]. *)
Definition reject (reason : option string) (found : option Seller) (now : Z)
  (env : MailEnv) (p : Provider) : Response * option Seller :=
  if negb (truthy_str reason) then (json 400 "Rejection reason required", None)
  else match found with
  | None => (json 404 "Seller not found", None)
  | Some seller =>
      let seller' := save now (set_rejectionReason reason
                       (set_isApproved false (set_status "rejected" seller))) in
      let resp := mkResponse 200 "Seller rejected"
                    [("status", JStr seller'.(status));
                     ("rejectionReason", match seller'.(rejectionReason) with
                                         | Some r => JStr r | None => JNull end)] in
      match (sendRejectionEmail env p).(result) with
      | Thrown _ => (resp, Some seller')   (* "Don't fail the rejection if email fails" *)
      | _ => (resp, Some seller')
      end
  end.

(** [["active", "inactive", "suspended"].includes(newStatus)]. *)
Definition valid_new_status (ns : option string) : bool :=
  match ns with
  | Some v => existsb (String.eqb v) ["active"; "inactive"; "suspended"]
  | None => false
  end.

Definition statusMap (ns : string) : string :=
  if String.eqb ns "active" then "approved"
  else if String.eqb ns "inactive" then "inactive"
  else if String.eqb ns "suspended" then "suspended"
  else "".

(** PUT /:id/status with body [{newStatus}]. *)
Definition set_seller_status (newStatus : option string) (found : option Seller)
  (now : Z) : Response * option Seller :=
  if negb (valid_new_status newStatus) then (json 400 "Invalid status", None)
  else
  let ns := match newStatus with Some v => v | None => "" end in
  match found with
  | None => (json 404 "Seller not found", None)
  | Some seller =>
      let seller' := save now (set_isApproved (String.eqb ns "active")
                       (set_status (statusMap ns) seller)) in
      (mkResponse 200 ("Seller " ++ ns ++ " successfully")
         [("status", JStr seller'.(status)); ("isApproved", JBool seller'.(isApproved))],
       Some seller')
  end.

(** The admin transitions, as one type. *)
Inductive AdminAction :=
| Approve
| Reject (reason : option string)
| SetStatus (newStatus : option string).

Definition run_admin (a : AdminAction) (found : option Seller) (now : Z)
  (env : MailEnv) (p : Provider) : Response * option Seller :=
  match a with
  | Approve => approve found now env p
  | Reject reason => reject reason found now env p
  | SetStatus ns => set_seller_status ns found now
  end.

End Admin.

(** ** Seller signup (POST /signup of [routes/seller.js]) *)

Module Signup.
Import Notify.

(** The schema's [lowercase: true] setter on [email], applied on
    construction and when casting the [findOne({email})] query. *)
Definition lower_ascii (c : Ascii.ascii) : Ascii.ascii :=
  let n := Ascii.nat_of_ascii c in
  if (Nat.leb 65 n && Nat.leb n 90)%bool then Ascii.ascii_of_nat (n + 32) else c.

Fixpoint lowercase (s : string) : string :=
  match s with
  | EmptyString => EmptyString
  | String c rest => String (lower_ascii c) (lowercase rest)
  end.

Record SignupReq := mkSignupReq {
  r_name : option string;
  r_email : option string;
  r_phone : option string;
  r_password : option string;
  r_aadhaarNumber : option string;
  r_aadhaarDocument : option string;
  r_bankName : option string;
  r_accountHolder : option string;
  r_accountNumber : option string;
  r_ifscCode : option string
}.

Definition all_fields_present (q : SignupReq) : bool :=
  truthy_str q.(r_name) && truthy_str q.(r_email) && truthy_str q.(r_phone) &&
  truthy_str q.(r_password) && truthy_str q.(r_aadhaarNumber) &&
  truthy_str q.(r_aadhaarDocument) && truthy_str q.(r_bankName) &&
  truthy_str q.(r_accountHolder) && truthy_str q.(r_accountNumber) &&
  truthy_str q.(r_ifscCode).

Definition get (o : option string) : string :=
  match o with Some v => v | None => "" end.

(** The seller collection. *)
Definition DB := list Seller.

Definition findOne_email (db : DB) (e : string) : option Seller :=
  find (fun s => String.eqb s.(email) (lowercase e)) db.

Definition findOne_aadhaar (db : DB) (a : string) : option Seller :=
  find (fun s => String.eqb s.(aadhaarNumber) a) db.

(** [seller.save()] of an existing document: replaces it by [_id]. *)
Definition db_replace (db : DB) (s : Seller) : DB :=
  map (fun x => if Nat.eqb x.(_id) s.(_id) then s else x) db.

Section SignupHandler.

(** [bcrypt.hash] of the first pre-save hook, and [jwt.sign({sellerId})]. *)
Variable hash : string -> string.
Variable jwt_sign : nat -> string.

(** [new Seller({...})] with the schema defaults, then its first save
    (the password is new, hence modified and hashed). The key
    [isEmailVerified: false] of the constructor is not a schema path and
    is dropped. *)
Definition new_seller (q : SignupReq) (fresh : nat) (now : Z) : Seller :=
  mkSeller fresh (get q.(r_name)) (lowercase (get q.(r_email))) (get q.(r_phone))
    (hash (get q.(r_password))) (get q.(r_aadhaarNumber)) (get q.(r_aadhaarDocument))
    (mkBankDetails (get q.(r_bankName)) (get q.(r_accountHolder))
       (get q.(r_accountNumber)) (get q.(r_ifscCode)))
    "pending" false None None 0 0 0 0 0 [] now now.

(** POST /signup. [fresh] is the new document's id, [r] the OTP draw. The
    OTP block runs in a try/catch that only logs. *)
Definition signup (db : DB) (q : SignupReq) (fresh : nat) (now r : Z)
  (env : MailEnv) (p : Provider) : Response * DB :=
  if negb (all_fields_present q) then (json 400 "All fields are required", db)
  else match findOne_email db (get q.(r_email)) with
  | Some _ => (json 400 "Email already registered", db)
  | None =>
  match findOne_aadhaar db (get q.(r_aadhaarNumber)) with
  | Some _ => (json 400 "Aadhaar number already registered", db)
  | None =>
      let seller := load (new_seller q fresh now) in
      let db1 := (db ++ [seller.(doc)])%list in
      let otpData := Otp.generateOTPWithExpiry 10 now r in
      let seller2 := set_doc_emailVerificationOTP otpData seller in
      let db2 := db_replace db1 (save_doc now seller2) in
      let resp := mkResponse 201
        "Seller registered successfully. Please verify your email with the OTP sent to your email address."
        ([("status", JStr seller2.(doc).(status))]
         ++ opt_key "isEmailVerified" (option_map JBool seller2.(doc_isEmailVerified))
         ++ [("token", JStr (jwt_sign seller2.(doc).(_id)))])%list in
      match (sendOTPToEmail env p).(result) with
      | Thrown _ => (resp, db2)   (* "Continue without OTP sent, user can request resend" *)
      | _ => (resp, db2)
      end
  end
  end.

End SignupHandler.

End Signup.

(** ** The approval gate ([middleware/sellerAuth.js]) *)

Module Gate.

(** [s.split(" ")]. *)
Fixpoint split_space (s : string) : list string :=
  match s with
  | EmptyString => [""]
  | String x rest =>
      if Ascii.eqb x " "%char then "" :: split_space rest
      else match split_space rest with
           | h :: t => String x h :: t
           | [] => [String x ""]
           end
  end.

(** [req.headers.authorization?.split(" ")[1]]. *)
Definition bearer_token (authorization : option string) : option string :=
  match authorization with
  | None => None
  | Some h => nth_error (split_space h) 1
  end.

Definition findById (db : Signup.DB) (id : nat) : option Seller :=
  find (fun s => Nat.eqb s.(_id) id) db.

Inductive GateResult :=
| Next (seller : Seller)       (* [req.seller = seller; next()] *)
| Refused (r : Response).

Section RequireApprovedSeller.

(** [jwt.verify(token, secret).sellerId]; [None] when [jwt.verify] throws
    (bad signature, expired token, malformed token). *)
Variable verify : string -> option nat.

Definition requireApprovedSeller (authorization : option string) (db : Signup.DB)
  : GateResult :=
  let token := bearer_token authorization in
  if negb (truthy_str token) then Refused (json 401 "No token provided")
  else match verify (Signup.get token) with
  | None => Refused (json 401 "Invalid token")
  | Some sellerId =>
      match findById db sellerId with
      | None => Refused (json 404 "Seller not found")
      | Some seller =>
          if negb seller.(isApproved) || negb (String.eqb seller.(status) "approved") then
            Refused (mkResponse 403
              "Seller account not approved. Please wait for admin approval."
              [("status", JStr seller.(status))])
          else Next seller
      end
  end.

(** A route [router.METHOD(path, requireApprovedSeller, handler)]: the
    handler runs on [req.seller] only when the gate calls [next()]. *)
Definition guarded (handler : Seller -> Response * option Seller)
  (authorization : option string) (db : Signup.DB) : Response * option Seller :=
  match requireApprovedSeller authorization db with
  | Next seller => handler seller
  | Refused r => (r, None)
  end.

End RequireApprovedSeller.

End Gate.

(** ** Withdrawal requests (POST /withdrawals of [routes/seller.js]; the
    second registration of the same route is identical and never reached) *)

Module Withdraw.

(** [(req.seller.withdrawals || []).reduce((sum, w) => sum + w.amount, 0)]. *)
Definition totalWithdrawn (s : Seller) : Z :=
  fold_left (fun sum w => sum + w.(w_amount)) s.(withdrawals) 0.

Definition availableBalance (s : Seller) : Z :=
  s.(totalEarnings) - totalWithdrawn s.

(** The snapshot of [req.seller.bankDetails] stored in a withdrawal. *)
Definition snapshot (b : BankDetails) : BankDetails :=
  mkBankDetails b.(bankName) b.(accountHolder) b.(accountNumber) b.(ifscCode).

(** The handler, on [req.seller] and the body's [amount] ([None] when it is
    absent or [null]). *)
Definition post_withdrawals (amount : option Z) (seller : Seller) (now : Z)
  : Response * option Seller :=
  match amount with
  | None => (json 400 "Valid amount is required", None)
  | Some a =>
    if (a =? 0) || (a <=? 0) then (json 400 "Valid amount is required", None)
    else
    let avail := availableBalance seller in
    if a >? avail then
      (mkResponse 400 "Insufficient balance" [("availableBalance", JNum avail)], None)
    else
    let w := mkWithdrawal a now "pending" (snapshot seller.(bankDetails)) None None in
    let seller' := save now (set_withdrawals (seller.(withdrawals) ++ [w])%list seller) in
    (mkResponse 201 "Withdrawal request created successfully"
       [("amount", JNum a); ("status", JStr "pending");
        ("remainingBalance", JNum (avail - a))], Some seller')
  end.

End Withdraw.

(** ** More field assignments *)

Definition set_password (v : string) (s : Seller) : Seller :=
  mkSeller s.(_id) s.(name) s.(email) s.(phone) v s.(aadhaarNumber)
    s.(aadhaarDocument) s.(bankDetails) s.(status) s.(isApproved) s.(rejectionReason)
    s.(approvedAt) s.(totalEarnings) s.(totalOrders) s.(totalProducts) s.(rating)
    s.(reviewCount) s.(withdrawals) s.(createdAt) s.(updatedAt).

Definition set_totalProducts (v : Z) (s : Seller) : Seller :=
  mkSeller s.(_id) s.(name) s.(email) s.(phone) s.(password) s.(aadhaarNumber)
    s.(aadhaarDocument) s.(bankDetails) s.(status) s.(isApproved) s.(rejectionReason)
    s.(approvedAt) s.(totalEarnings) s.(totalOrders) v s.(rating)
    s.(reviewCount) s.(withdrawals) s.(createdAt) s.(updatedAt).

(** ** Other seller self-service routes ([routes/seller.js]) *)

Module SellerRoutes.

Section Routes.

(** [bcrypt.hash] (run by the pre-save hook when the password was
    modified), [bcrypt.compare(plain, hashed)] behind
    [seller.comparePassword], [jwt.sign({sellerId})] and
    [jwt.verify(token).sellerId] ([None] when it throws). *)
Variable hash : string -> string.
Variable compare : string -> string -> bool.
Variable jwt_sign : nat -> string.
Variable verify : string -> option nat.

(** POST /login. *)
Definition login (db : Signup.DB) (req_email req_password : option string)
  : Response :=
  if negb (truthy_str req_email) || negb (truthy_str req_password) then
    json 400 "Email and password required"
  else match Signup.findOne_email db (Signup.get req_email) with
  | None => json 400 "Seller not found"
  | Some seller =>
      if negb (compare (Signup.get req_password) seller.(password)) then
        json 400 "Invalid password"
      else mkResponse 200 "Login successful"
             [("status", JStr seller.(status)); ("isApproved", JBool seller.(isApproved));
              ("token", JStr (jwt_sign seller.(_id)))]
  end.

(** GET /status: authenticated by the token only, no approval gate. *)
Definition get_status (authorization : option string) (db : Signup.DB) : Response :=
  let token := Gate.bearer_token authorization in
  if negb (truthy_str token) then json 401 "No token provided"
  else match verify (Signup.get token) with
  | None => json 401 "Invalid token"
  | Some sellerId =>
      match Gate.findById db sellerId with
      | None => json 404 "Seller not found"
      | Some seller =>
          mkResponse 200 ""
            [("status", JStr seller.(status)); ("isApproved", JBool seller.(isApproved));
             ("rejectionReason", match seller.(rejectionReason) with
                                 | Some r => if truthy_str (Some r) then JStr r else JNull
                                 | None => JNull end);
             ("createdAt", JNum seller.(createdAt))]
      end
  end.

End Routes.

End SellerRoutes.

(** ** Query helpers: [.sort({key: -1 | 1})] as an insertion sort *)

Fixpoint insert_by {A : Type} (le : A -> A -> bool) (x : A) (l : list A) : list A :=
  match l with
  | [] => [x]
  | y :: t => if le x y then x :: l else y :: insert_by le x t
  end.

Fixpoint sort_by {A : Type} (le : A -> A -> bool) (l : list A) : list A :=
  match l with
  | [] => []
  | x :: t => insert_by le x (sort_by le t)
  end.

(** ** Products ([models/Product.js]) and the seller's product routes *)

Module Products.

Record Product := mkProduct {
  p_id : nat;
  p_name : string;
  p_description : option string;
  p_price : Z;
  p_category : string;
  p_image : string;
  p_stock : Z;
  p_rating : Z;
  p_reviews : Z;
  p_instaVideo : string;
  p_sellerId : option nat;   (* [null] for admin products *)
  p_status : string;
  p_createdAt : Z
}.

Definition product_status_ok (st : string) : bool :=
  existsb (String.eqb st) ["active"; "inactive"; "out_of_stock"].

Definition findProduct (products : list Product) (id : nat) : option Product :=
  find (fun p => Nat.eqb p.(p_id) id) products.

(** [Number] truthiness: [0] (and absence) is falsy. *)
Definition truthy_num (o : option Z) : bool :=
  match o with None => false | Some n => negb (n =? 0) end.

Definition get_num (o : option Z) : Z := match o with Some n => n | None => 0 end.

(** PUT /products/:productId, on [req.seller]. [product.sellerId.toString()]
    throws on an admin product ([null] owner), answered 500; a status
    outside the schema's enum fails the save's validation, also 500. *)
Definition update_product (productId : nat) (q_name q_description : option string)
  (q_price q_stock : option Z) (q_status q_image q_instaVideo : option string)
  (products : list Product) (seller : Seller) : Response * list Product :=
  match findProduct products productId with
  | None => (json 404 "Product not found", products)
  | Some p =>
    match p.(p_sellerId) with
    | None => (json 500 "Error updating product", products)
    | Some sid =>
      if negb (Nat.eqb sid seller.(_id)) then (json 403 "Not authorized", products)
      else
      let p' := mkProduct p.(p_id)
        (if truthy_str q_name then Signup.get q_name else p.(p_name))
        (if truthy_str q_description then q_description else p.(p_description))
        (if truthy_num q_price then get_num q_price else p.(p_price))
        p.(p_category)
        (if truthy_str q_image then Signup.get q_image else p.(p_image))
        (match q_stock with Some v => v | None => p.(p_stock) end)
        p.(p_rating) p.(p_reviews)
        (if truthy_str q_instaVideo then Signup.get q_instaVideo else p.(p_instaVideo))
        p.(p_sellerId)
        (if truthy_str q_status then Signup.get q_status else p.(p_status))
        p.(p_createdAt) in
      if negb (product_status_ok p'.(p_status)) then (json 500 "Error updating product", products)
      else (json 200 "Product updated successfully",
            map (fun x => if Nat.eqb x.(p_id) productId then p' else x) products)
    end
  end.

(** DELETE /products/:productId, on [req.seller]. *)
Definition delete_product (productId : nat) (products : list Product) (seller : Seller)
  (now : Z) : Response * list Product * option Seller :=
  match findProduct products productId with
  | None => (json 404 "Product not found", products, None)
  | Some p =>
    match p.(p_sellerId) with
    | None => (json 500 "Error deleting product", products, None)
    | Some sid =>
      if negb (Nat.eqb sid seller.(_id)) then (json 403 "Not authorized", products, None)
      else
      let tp := seller.(totalProducts) in
      (json 200 "Product deleted successfully",
       filter (fun x => negb (Nat.eqb x.(p_id) productId)) products,
       Some (save now (set_totalProducts (Z.max 0 ((if tp =? 0 then 1 else tp) - 1)) seller)))
    end
  end.

(** [Product.find({sellerId: req.seller._id})] mapped to ids. *)
Definition seller_product_ids (products : list Product) (seller : Seller) : list nat :=
  map p_id (filter (fun p => match p.(p_sellerId) with
                             | Some sid => Nat.eqb sid seller.(_id)
                             | None => false end) products).

End Products.

(** ** The seller's order routes. The Order model ([models/Order]) is not
    among the sources: an order is modelled by the fields these handlers
    read and write. *)

Module Orders.
Import Products.

Record OrderItem := mkItem { item_productId : nat; item_quantity : Z }.

Record Order := mkOrder {
  order_id : nat;
  order_userId : nat;
  order_items : list OrderItem;
  order_totalAmount : Z;
  order_status : string;
  order_createdAt : Z
}.

Definition owned (ids : list nat) (it : OrderItem) : bool :=
  existsb (Nat.eqb it.(item_productId)) ids.

(** PUT /orders/:orderId, on [req.seller]. *)
Definition update_order (q_status : option string) (orderId : nat) (orders : list Order)
  (products : list Product) (seller : Seller) : Response * list Order :=
  if negb (truthy_str q_status) then (json 400 "Status is required", orders)
  else match find (fun o => Nat.eqb o.(order_id) orderId) orders with
  | None => (json 404 "Order not found", orders)
  | Some o =>
      let ids := seller_product_ids products seller in
      if negb (existsb (owned ids) o.(order_items)) then
        (json 403 "Not authorized to update this order", orders)
      else
        let o' := mkOrder o.(order_id) o.(order_userId) o.(order_items)
                    o.(order_totalAmount) (Signup.get q_status) o.(order_createdAt) in
        (json 200 "Order status updated successfully",
         map (fun x => if Nat.eqb x.(order_id) orderId then o' else x) orders)
  end.

End Orders.

(** ** Admin listing queries ([routes/adminSeller.js]). The returned
    documents are modelled before the [.select("-password -aadhaarNumber")]
    projection: the properties are about which sellers are returned. *)

Module AdminQueries.

(** GET /pending-approvals: pending sellers, oldest first. *)
Definition pending_approvals (db : Signup.DB) : list Seller :=
  sort_by (fun a b => a.(createdAt) <=? b.(createdAt))
    (filter (fun s => String.eqb s.(status) "pending") db).

End AdminQueries.

(** ** Concrete documents and request sequences used by the proofs *)

Module Scenario.

Definition sample_bank : BankDetails :=
  mkBankDetails "State Bank" "Asha Rao" "1234567890" "SBIN0000001".

(** A freshly signed-up seller (pending, not approved). *)
Definition sample_seller : Seller :=
  mkSeller 1 "Asha" "asha@example.com" "9999999999" "hashed" "123412341234"
    "aadhaar.pdf" sample_bank "pending" false None None 0 0 0 0 0 [] 0 0.

(** Successive POST /verify-email requests [(otp, time)] by the same
    seller, each one reading the document the previous one saved. *)
Fixpoint verify_seq (reqs : list (string * Z)) (s : Seller) : list Z * Seller :=
  match reqs with
  | [] => ([], s)
  | (o, t) :: rest =>
      let (resp, saved) := Otp.verify_email (Some s.(email)) (Some o) (Some s) t in
      let s1 := match saved with Some x => x | None => s end in
      let (codes, final) := verify_seq rest s1 in
      (res_code resp :: codes, final)
  end.

(** An approved seller with the given earnings and withdrawals. *)
Definition approved_seller (earnings : Z) (ws : list Withdrawal) : Seller :=
  set_withdrawals ws (mkSeller 1 "Asha" "asha@example.com" "9999999999" "hashed"
    "123412341234" "aadhaar.pdf" sample_bank "approved" true None (Some 0)
    earnings 0 0 0 0 [] 0 0).

Definition timeout_error : Notify.ProviderError := Notify.mkErr "connect ETIMEDOUT 142.250.0.1:443" "ETIMEDOUT".

(** A provider failing transiently on its first two calls. *)
Definition flaky_provider : Notify.Provider :=
  fun k => match k with
           | 1%nat | 2%nat => Notify.Failed timeout_error
           | _ => Notify.Delivered
           end.

Definition configured_env : Notify.MailEnv := Notify.mkEnv (Some "admin@expressbuy.example") true.

(** A provider refusing every call with an authorization error (not
    transient). *)
Definition auth_error : Notify.ProviderError := Notify.mkErr "invalid_grant" "401".

Definition refusing_provider : Notify.Provider := fun _ => Notify.Failed auth_error.

Definition signup_request : Signup.SignupReq :=
  Signup.mkSignupReq (Some "Ravi") (Some "Ravi@Example.com") (Some "8888888888")
    (Some "secret1") (Some "567856785678") (Some "aadhaar-ravi.pdf")
    (Some "Canara Bank") (Some "Ravi Kumar") (Some "9876543210") (Some "CNRB0000002").

Definition demo_hash (pw : string) : string := "bcrypt:" ++ pw.

Definition demo_jwt_sign (id : nat) : string :=
  "jwt." ++ NilZero.string_of_uint (Nat.to_uint id).

(** [bcrypt.compare] against [demo_hash]. *)
Definition demo_compare (pw h : string) : bool := String.eqb h (demo_hash pw).

(** [jwt.verify] for the tokens of sellers 1 and 2. *)
Definition demo_verify (tok : string) : option nat :=
  if String.eqb tok (demo_jwt_sign 1) then Some 1%nat
  else if String.eqb tok (demo_jwt_sign 2) then Some 2%nat
  else None.

(** The sample seller with the password "secret1" stored hashed. *)
Definition registered_seller : Seller := set_password (demo_hash "secret1") sample_seller.

(** A second pending seller, registered later. *)
Definition second_seller : Seller :=
  mkSeller 2 "Ravi" "ravi@example.com" "8888888888" "hashed2" "567856785678"
    "aadhaar-ravi.pdf" sample_bank "pending" false None None 0 0 0 0 0 [] 5 5.

Definition demo_product (id : nat) (owner : option nat) : Products.Product :=
  Products.mkProduct id "Lamp" None 500 "home" "lamp.jpg" 10 0 0 "" owner "active" 0.

(** Product 10 belongs to seller 1, product 11 to seller 2, product 12 is
    an admin product. *)
Definition demo_products : list Products.Product :=
  [demo_product 10 (Some 1%nat); demo_product 11 (Some 2%nat); demo_product 12 None].

(** Order 5 holds product 10, order 6 holds product 11. *)
Definition demo_orders : list Orders.Order :=
  [Orders.mkOrder 5 7 [Orders.mkItem 10 1] 500 "pending" 3;
   Orders.mkOrder 6 8 [Orders.mkItem 11 2] 900 "pending" 4].

End Scenario.

(** ** Auxiliary definitions for the properties *)

Definition transient_failure (o : Notify.Outcome) : bool :=
  match o with Notify.Failed e => Notify.isNetworkError e | Notify.Delivered => false end.

(** Format of the generated OTP. *)
Definition is_digit (c : Ascii.ascii) : bool :=
  (48 <=? Ascii.nat_of_ascii c)%nat && (Ascii.nat_of_ascii c <=? 57)%nat.

(** A string of exactly six decimal digits, the first one not 0. *)
Definition six_digit_code (s : string) : bool :=
  match list_ascii_of_string s with
  | c :: _ => (String.length s =? 6)%nat && forallb is_digit (list_ascii_of_string s)
              && negb (Ascii.eqb c "0"%char)
  | [] => false
  end.

(** The digit [k] (0..9) in front of a decimal numeral. *)
Definition dig (k : Z) (u : Decimal.uint) : Decimal.uint :=
  match k with
  | 0 => Decimal.D0 u | 1 => Decimal.D1 u | 2 => Decimal.D2 u | 3 => Decimal.D3 u
  | 4 => Decimal.D4 u | 5 => Decimal.D5 u | 6 => Decimal.D6 u | 7 => Decimal.D7 u
  | 8 => Decimal.D8 u | _ => Decimal.D9 u
  end.

(** The character [String.fromCharCode(48 + k)] of a digit. *)
Definition digit_char (k : Z) : Ascii.ascii :=
  match k with
  | 0 => "0" | 1 => "1" | 2 => "2" | 3 => "3" | 4 => "4"
  | 5 => "5" | 6 => "6" | 7 => "7" | 8 => "8" | _ => "9"
  end%char.

(** The [k] lowest decimal digits of [n], most significant first. *)
Fixpoint udigits (k : nat) (n : Z) : Decimal.uint :=
  match k with
  | O => Decimal.Nil
  | S k' => dig ((n / 10 ^ Z.of_nat k') mod 10) (udigits k' n)
  end.

(** Horner evaluation of a numeral, continuing from [acc]. *)
Fixpoint uval (u : Decimal.uint) (acc : Z) : Z :=
  match u with
  | Decimal.Nil => acc
  | Decimal.D0 l => uval l (10 * acc)
  | Decimal.D1 l => uval l (10 * acc + 1)
  | Decimal.D2 l => uval l (10 * acc + 2)
  | Decimal.D3 l => uval l (10 * acc + 3)
  | Decimal.D4 l => uval l (10 * acc + 4)
  | Decimal.D5 l => uval l (10 * acc + 5)
  | Decimal.D6 l => uval l (10 * acc + 6)
  | Decimal.D7 l => uval l (10 * acc + 7)
  | Decimal.D8 l => uval l (10 * acc + 8)
  | Decimal.D9 l => uval l (10 * acc + 9)
  end.

Definition no_space (s : string) : bool :=
  forallb (fun c => negb (Ascii.eqb c " "%char)) (list_ascii_of_string s).

(** The refusal of the approval gate. *)
Definition gate_403 (st : string) : Response :=
  mkResponse 403 "Seller account not approved. Please wait for admin approval."
    [("status", JStr st)].

(** * Theorems *)

(** ** OTP verification and lockout *)

(** POST /send-otp stores nothing of the OTP it e-mails: for a stored,
    unverified seller the saved document is the stored one with
    [updatedAt] stamped. *)
Lemma send_otp_saves_schema_only (s : Seller) (e : string) (now r : Z) (sent : bool) :
  truthy_str (Some e) = true ->
  snd (Otp.send_otp (Some e) (Some s) now r sent) = Some (save now s).
Proof.
  intro He. unfold Otp.send_otp. rewrite He. simpl. destruct sent; reflexivity.
Qed.

(** Every POST /verify-email with an e-mail and an OTP that finds a
    seller answers 500: the loaded document has no [emailVerificationOTP],
    [validateOTP] reports "No OTP found", and reading its [attempts]
    throws. Nothing is saved. *)
Lemma verify_email_found_500 (s : Seller) (e p : string) (t : Z) :
  truthy_str (Some e) = true ->
  truthy_str (Some p) = true ->
  Otp.verify_email (Some e) (Some p) (Some s) t = (json 500 "Error verifying email", None).
Proof.
  intros He Hp. unfold Otp.verify_email. rewrite He, Hp. reflexivity.
Qed.

(** Claim C1 (fails on the code). For every stored seller and every
    sequence of POST /verify-email requests with non-empty codes (each one
    reading the document the previous one left), every answer is 500
    "Error verifying email", never 400 nor 429, and the stored document is
    never changed: no failed attempt is counted, so the lockout is never
    reached, and a correct code is refused as well. Issuing an OTP with
    POST /send-otp does not change this, since it stores only
    [updatedAt]. *)
Theorem verify_email_never_rate_limited (s : Seller) (reqs : list (string * Z)) :
  truthy_str (Some s.(email)) = true ->
  Forall (fun q => truthy_str (Some (fst q)) = true) reqs ->
  Scenario.verify_seq reqs s = (map (fun _ => 500) reqs, s)
  /\ (forall now r sent,
        snd (Otp.send_otp (Some s.(email)) (Some s) now r sent) = Some (save now s)).
Proof.
  intros He Hall. split.
  - induction Hall as [|[p t] rest Hp _ IH]; [reflexivity|].
    simpl in Hp. cbn [Scenario.verify_seq].
    rewrite (verify_email_found_500 s (email s) p t He Hp).
    cbn iota beta. rewrite IH. reflexivity.
  - intros now r sent. exact (send_otp_saves_schema_only s (email s) now r sent He).
Qed.

(** ** OTP validity window *)

Lemma generateOTP_nonempty (r : Z) : Otp.generateOTP r <> "".
Proof.
  unfold Otp.generateOTP, NilZero.string_of_int, NilZero.string_of_uint.
  destruct (Z.to_int (100000 + r)) as [d|d]; [destruct d|]; discriminate.
Qed.

Lemma truthy_generateOTP (r : Z) : truthy_str (Some (Otp.generateOTP r)) = true.
Proof.
  unfold truthy_str. destruct (String.eqb_spec (Otp.generateOTP r) "") as [E|_].
  - exfalso. exact (generateOTP_nonempty r E).
  - reflexivity.
Qed.

(** Claim C3 (counterexample). A code issued at time 0 for 10 minutes
    expires at 600000 ms, but a check at exactly 600000 with the matching
    code is not [Expired]: the claim "fails with Expired for every
    t >= expiresAt" is false. *)
Theorem validateOTP_at_expiresAt_not_expired :
  ~ (forall (N t0 r t : Z), t >= t0 + N * 60 * 1000 ->
       Otp.validateOTP (Some (Otp.generateOTPWithExpiry N t0 r)) (Otp.generateOTP r) t
       = Otp.Expired).
Proof.
  intro H. specialize (H 10 0 23456 600000).
  assert (E : 600000 >= 0 + 10 * 60 * 1000) by lia.
  specialize (H E). vm_compute in H. discriminate H.
Qed.

(** Claim C3 (amended). For an OTP issued at [t0] with expiry [N] minutes,
    checked at [t]: it fails with [Expired] exactly when
    [t > t0 + N*60000] (= expiresAt); otherwise it succeeds when the codes
    match and fails with [InvalidOtp] when they differ. So a check at
    [t <= expiresAt] with the matching code succeeds. *)
Theorem validateOTP_window (N t0 r t : Z) (provided : string) :
  Otp.validateOTP (Some (Otp.generateOTPWithExpiry N t0 r)) provided t =
  if t >? t0 + N * 60 * 1000 then Otp.Expired
  else if String.eqb (Otp.generateOTP r) provided then Otp.OtpValid
  else Otp.InvalidOtp.
Proof.
  unfold Otp.validateOTP, Otp.generateOTPWithExpiry, Otp.expiry_ms.
  cbn -[truthy_str Otp.generateOTP Z.gtb Z.mul].
  rewrite truthy_generateOTP. reflexivity.
Qed.

(** ** Admin transitions keep [isApproved] and [status] in sync *)

Lemma valid_new_status_cases (ns : option string) :
  Admin.valid_new_status ns = true ->
  ns = Some "active" \/ ns = Some "inactive" \/ ns = Some "suspended".
Proof.
  destruct ns as [v|]; unfold Admin.valid_new_status; [|discriminate].
  intro H. apply existsb_exists in H. destruct H as [x [Hin Hx]].
  apply String.eqb_eq in Hx. subst x.
  simpl in Hin. destruct Hin as [<-|[<-|[<-|[]]]]; auto.
Qed.

(** Claim C2. Every admin transition (approve, reject, status change to
    active/inactive/suspended) that saves a seller saves one with
    [isApproved = true] iff [status = "approved"], whatever the seller
    was before; a transition that fails saves nothing. *)
Theorem admin_transition_keeps_approval_in_sync
  (a : Admin.AdminAction) (found : option Seller) (now : Z)
  (env : Notify.MailEnv) (p : Notify.Provider) :
  match snd (Admin.run_admin a found now env p) with
  | Some s' => s'.(isApproved) = true <-> s'.(status) = "approved"
  | None => True
  end.
Proof.
  destruct a as [|reason|ns]; simpl.
  - unfold Admin.approve. destruct found as [s|]; simpl; [|exact I].
    destruct (Notify.result (Notify.sendApprovalEmail env p)); simpl; tauto.
  - unfold Admin.reject. destruct (truthy_str reason); simpl; [|exact I].
    destruct found as [s|]; simpl; [|exact I].
    destruct (Notify.result (Notify.sendRejectionEmail env p)); simpl;
      split; discriminate.
  - unfold Admin.set_seller_status. destruct (Admin.valid_new_status ns) eqn:Hv;
      simpl; [|exact I].
    destruct found as [s|]; simpl; [|exact I].
    destruct (valid_new_status_cases ns Hv) as [ -> | [ -> | -> ] ]; simpl;
      split; (reflexivity || discriminate).
Qed.

(** ** Withdrawals *)

Lemma fold_withdrawn_acc (ws : list Withdrawal) (acc : Z) :
  fold_left (fun sum w => sum + w.(w_amount)) ws acc
  = acc + fold_right Z.add 0 (map w_amount ws).
Proof.
  revert acc. induction ws as [|w ws IH]; intro acc; simpl; [lia|].
  rewrite IH. lia.
Qed.

Lemma availableBalance_sum (s : Seller) :
  Withdraw.availableBalance s
  = s.(totalEarnings) - fold_right Z.add 0 (map w_amount s.(withdrawals)).
Proof.
  unfold Withdraw.availableBalance, Withdraw.totalWithdrawn.
  rewrite fold_withdrawn_acc. lia.
Qed.

Lemma post_withdrawals_positive (a : Z) (s : Seller) (now : Z) :
  0 < a ->
  Withdraw.post_withdrawals (Some a) s now =
  if a >? Withdraw.availableBalance s then
    (mkResponse 400 "Insufficient balance"
       [("availableBalance", JNum (Withdraw.availableBalance s))], None)
  else
    (mkResponse 201 "Withdrawal request created successfully"
       [("amount", JNum a); ("status", JStr "pending");
        ("remainingBalance", JNum (Withdraw.availableBalance s - a))],
     Some (save now (set_withdrawals
       (s.(withdrawals) ++ [mkWithdrawal a now "pending"
                             (Withdraw.snapshot s.(bankDetails)) None None])%list s))).
Proof.
  intro Ha. unfold Withdraw.post_withdrawals.
  replace (a =? 0) with false by (symmetry; apply Z.eqb_neq; lia).
  replace (a <=? 0) with false by (symmetry; apply Z.leb_gt; lia).
  reflexivity.
Qed.

(** Claim C4 (counterexample). A seller with earnings 0 and a recorded
    withdrawal of 10 has available balance -10; a request for -5 exceeds
    it but is refused with "Valid amount is required", not with
    "Insufficient balance". *)
Theorem withdrawal_over_balance_not_insufficient :
  ~ (forall (amount : Z) (s : Seller) (now : Z),
       amount > Withdraw.availableBalance s ->
       res_message (fst (Withdraw.post_withdrawals (Some amount) s now))
       = "Insufficient balance").
Proof.
  intro H.
  specialize (H (-5) (Scenario.approved_seller 0
    [mkWithdrawal 10 0 "pending" Scenario.sample_bank None None]) 7).
  assert (E : -5 > Withdraw.availableBalance (Scenario.approved_seller 0
    [mkWithdrawal 10 0 "pending" Scenario.sample_bank None None])) by (vm_compute; reflexivity).
  specialize (H E). vm_compute in H. discriminate H.
Qed.

(** Claim C4 (amended). [availableBalance = totalEarnings - sum of the
    withdrawal amounts], and a request for a positive amount strictly
    greater than it fails with "Insufficient balance" (400, reporting
    [availableBalance]) and saves nothing. *)
Theorem withdrawal_over_balance_refused (s : Seller) (a now : Z)
  (Hpos : 0 < a) (Hgt : a > Withdraw.availableBalance s) :
  Withdraw.availableBalance s
    = s.(totalEarnings) - fold_right Z.add 0 (map w_amount s.(withdrawals))
  /\ Withdraw.post_withdrawals (Some a) s now
     = (mkResponse 400 "Insufficient balance"
          [("availableBalance", JNum (Withdraw.availableBalance s))], None).
Proof.
  split; [apply availableBalance_sum|].
  rewrite post_withdrawals_positive by exact Hpos.
  replace (a >? Withdraw.availableBalance s) with true by (symmetry; apply Z.gtb_lt; lia).
  reflexivity.
Qed.

Lemma totalWithdrawn_app (s : Seller) (now : Z) (w : Withdrawal) :
  Withdraw.totalWithdrawn (save now (set_withdrawals (s.(withdrawals) ++ [w])%list s))
  = Withdraw.totalWithdrawn s + w.(w_amount).
Proof.
  unfold Withdraw.totalWithdrawn. simpl. rewrite fold_left_app. reflexivity.
Qed.

(** The withdrawal handler keeps the available balance non-negative. *)
Lemma withdrawal_keeps_balance_nonnegative (amount : option Z) (s s' : Seller)
  (now : Z) (resp : Response) :
  0 <= Withdraw.availableBalance s ->
  Withdraw.post_withdrawals amount s now = (resp, Some s') ->
  0 <= Withdraw.availableBalance s'.
Proof.
  intros H0 H. destruct amount as [a|]; [|discriminate].
  destruct (Z_lt_le_dec 0 a) as [Ha|Ha].
  - rewrite post_withdrawals_positive in H by exact Ha.
    destruct (a >? Withdraw.availableBalance s) eqn:Hg; [discriminate|].
    injection H as _ <-. rewrite Z.gtb_ltb in Hg. apply Z.ltb_ge in Hg.
    unfold Withdraw.availableBalance in *. rewrite totalWithdrawn_app. simpl. lia.
  - unfold Withdraw.post_withdrawals in H.
    replace (a <=? 0) with true in H by (symmetry; apply Z.leb_le; lia).
    rewrite orb_true_r in H. discriminate.
Qed.

(** Claim C8 (counterexample). For a seller with available balance 0, a
    request for exactly the available balance is refused (400). *)
Theorem withdrawal_exact_balance_zero_refused :
  ~ (forall (s : Seller) (now : Z),
       res_code (fst (Withdraw.post_withdrawals
                        (Some (Withdraw.availableBalance s)) s now)) = 201).
Proof.
  intro H. specialize (H (Scenario.approved_seller 0 []) 7).
  vm_compute in H. discriminate H.
Qed.

(** Claim C8 (amended). When the available balance is positive, a request
    for exactly that amount succeeds (201), saves the seller with one
    pending withdrawal appended that snapshots the bank details, and
    reports [remainingBalance = 0] (the balance minus the same number). *)
Theorem withdrawal_exact_balance (s : Seller) (now : Z)
  (Hpos : 0 < Withdraw.availableBalance s) :
  let a := Withdraw.availableBalance s in
  let s' := save now (set_withdrawals
              (s.(withdrawals) ++ [mkWithdrawal a now "pending"
                                    (Withdraw.snapshot s.(bankDetails)) None None])%list s) in
  Withdraw.post_withdrawals (Some a) s now
  = (mkResponse 201 "Withdrawal request created successfully"
       [("amount", JNum a); ("status", JStr "pending"); ("remainingBalance", JNum 0)],
     Some s').
Proof.
  intros a s'. subst a s'. rewrite post_withdrawals_positive by exact Hpos.
  rewrite Z.gtb_ltb, Z.ltb_irrefl, Z.sub_diag. reflexivity.
Qed.

(** Claim C9. A withdrawal request whose amount is absent, zero or
    negative is refused with "Valid amount is required" (400) whatever the
    seller, so before and independently of any balance computation, and
    saves nothing. Consequently every saved request appended exactly one
    withdrawal, of a positive amount, and a seller whose withdrawals all
    have positive amounts keeps that property. *)
Theorem withdrawal_nonpositive_amount_rejected :
  (forall (amount : option Z) (s : Seller) (now : Z),
     (amount = None \/ exists a, amount = Some a /\ a <= 0) ->
     Withdraw.post_withdrawals amount s now = (json 400 "Valid amount is required", None))
  /\ (forall (amount : option Z) (s s' : Seller) (now : Z) (resp : Response),
     Withdraw.post_withdrawals amount s now = (resp, Some s') ->
     exists a w, amount = Some a /\ 0 < a /\ w.(w_amount) = a
       /\ s'.(withdrawals) = (s.(withdrawals) ++ [w])%list)
  /\ (forall (amount : option Z) (s s' : Seller) (now : Z) (resp : Response),
     Forall (fun w => 0 < w.(w_amount)) s.(withdrawals) ->
     Withdraw.post_withdrawals amount s now = (resp, Some s') ->
     Forall (fun w => 0 < w.(w_amount)) s'.(withdrawals)).
Proof.
  assert (Hsaved : forall (amount : option Z) (s s' : Seller) (now : Z) (resp : Response),
     Withdraw.post_withdrawals amount s now = (resp, Some s') ->
     exists a w, amount = Some a /\ 0 < a /\ w.(w_amount) = a
       /\ s'.(withdrawals) = (s.(withdrawals) ++ [w])%list).
  { intros amount s s' now resp H. destruct amount as [a|]; [|discriminate].
    destruct (Z_lt_le_dec 0 a) as [Ha|Ha].
    - rewrite post_withdrawals_positive in H by exact Ha.
      destruct (a >? Withdraw.availableBalance s); [discriminate|].
      injection H as _ <-. eexists a, _. repeat split; [exact Ha|reflexivity].
    - unfold Withdraw.post_withdrawals in H.
      replace (a <=? 0) with true in H by (symmetry; apply Z.leb_le; lia).
      rewrite orb_true_r in H. discriminate. }
  split; [|split; [exact Hsaved|]].
  - intros amount s now [->|[a [-> Ha]]]; [reflexivity|].
    unfold Withdraw.post_withdrawals.
    replace (a <=? 0) with true by (symmetry; apply Z.leb_le; lia).
    rewrite orb_true_r. reflexivity.
  - intros amount s s' now resp Hall H.
    destruct (Hsaved amount s s' now resp H) as [a [w [_ [Ha [Hw ->]]]]].
    apply Forall_app. split; [exact Hall|]. constructor; [lia|constructor].
Qed.

(** ** Admin reject: frame *)

(** Claim C10. A reject that saves a seller changes only [status]
    (to "rejected"), [isApproved] (to false), [rejectionReason] (to the
    given reason) and [updatedAt] (to the save time): every other field,
    among them [approvedAt], [totalEarnings] and [withdrawals], is the
    stored one. [emailVerificationOTP] and [isEmailVerified] are not
    fields of the stored document at all (see [Doc]), so reject cannot
    change them either. *)
Theorem reject_frame (reason : option string) (found : option Seller) (now : Z)
  (env : Notify.MailEnv) (p : Notify.Provider) (resp : Response) (s' : Seller)
  (H : Admin.reject reason found now env p = (resp, Some s')) :
  exists s, found = Some s /\
    s' = mkSeller s.(_id) s.(name) s.(email) s.(phone) s.(password)
           s.(aadhaarNumber) s.(aadhaarDocument) s.(bankDetails)
           "rejected" false reason
           s.(approvedAt) s.(totalEarnings) s.(totalOrders) s.(totalProducts)
           s.(rating) s.(reviewCount) s.(withdrawals) s.(createdAt)
           now.
Proof.
  unfold Admin.reject in H. destruct (truthy_str reason); [|discriminate].
  destruct found as [s|]; [|discriminate].
  exists s. split; [reflexivity|].
  destruct (Notify.result (Notify.sendRejectionEmail env p));
    injection H as _ <-; reflexivity.
Qed.

(** ** Notification failures do not abort transitions *)

(** Claim C6. Whatever the mail environment and provider do (including
    every failure after retries): approve answers 200 and saves the
    approved seller; reject with a non-empty reason answers 200 and saves
    the rejected seller with the reason; and a signup with all fields
    present and no duplicate e-mail or Aadhaar number answers 201 with a
    token, the new seller (status "pending") being in the collection. *)
Theorem notification_failure_does_not_abort
  (s : Seller) (reason : string) (Hreason : reason <> "")
  (db : Signup.DB) (q : Signup.SignupReq) (fresh : nat) (now r : Z)
  (hash : string -> string) (jwt_sign : nat -> string)
  (Hfields : Signup.all_fields_present q = true)
  (Hemail : Signup.findOne_email db (Signup.get q.(Signup.r_email)) = None)
  (Haadhaar : Signup.findOne_aadhaar db (Signup.get q.(Signup.r_aadhaarNumber)) = None)
  (env : Notify.MailEnv) (p : Notify.Provider) :
  (res_code (fst (Admin.approve (Some s) now env p)) = 200
   /\ snd (Admin.approve (Some s) now env p)
      = Some (save now (set_rejectionReason None (set_approvedAt (Some now)
                (set_isApproved true (set_status "approved" s))))))
  /\ (res_code (fst (Admin.reject (Some reason) (Some s) now env p)) = 200
   /\ snd (Admin.reject (Some reason) (Some s) now env p)
      = Some (save now (set_rejectionReason (Some reason)
                (set_isApproved false (set_status "rejected" s)))))
  /\ (res_code (fst (Signup.signup hash jwt_sign db q fresh now r env p)) = 201
   /\ In ("token", JStr (jwt_sign fresh))
         (res_extra (fst (Signup.signup hash jwt_sign db q fresh now r env p)))
   /\ exists s2, In s2 (snd (Signup.signup hash jwt_sign db q fresh now r env p))
         /\ s2.(_id) = fresh /\ s2.(status) = "pending"
         /\ s2.(email) = Signup.lowercase (Signup.get q.(Signup.r_email))).
Proof.
  split; [|split].
  - unfold Admin.approve.
    destruct (Notify.result (Notify.sendApprovalEmail env p)); split; reflexivity.
  - unfold Admin.reject.
    replace (truthy_str (Some reason)) with true
      by (unfold truthy_str; destruct (String.eqb_spec reason ""); [contradiction|reflexivity]).
    destruct (Notify.result (Notify.sendRejectionEmail env p)); split; reflexivity.
  - unfold Signup.signup. rewrite Hfields, Hemail, Haadhaar. simpl negb. cbv iota.
    set (s2 := save now (Signup.new_seller hash q fresh now)).
    assert (Hin : In s2 (Signup.db_replace
                   (db ++ [Signup.new_seller hash q fresh now])%list s2)).
    { unfold Signup.db_replace. rewrite map_app. apply in_or_app. right.
      simpl. rewrite Nat.eqb_refl. left. reflexivity. }
    destruct (Notify.result (Notify.sendOTPToEmail env p));
      (split; [reflexivity|split; [simpl; auto|]]);
      exists s2; simpl; repeat split; exact Hin.
Qed.

(** ** The approval gate *)

(** Claim C7. For every guarded route handler: either the bearer token is
    present, [jwt.verify] accepts it, it names an existing seller with
    [isApproved = true] and [status = "approved"], and the handler runs on
    that seller; or the request is refused (401, 403 or 404) without
    running the handler and without saving anything. When the token is
    valid and the seller exists but is not approved, the answer is 403
    carrying the seller's current status. *)
Theorem approval_gate (verify : string -> option nat)
  (handler : Seller -> Response * option Seller)
  (authorization : option string) (db : Signup.DB) :
  ((exists tok id s, Gate.bearer_token authorization = Some tok /\ tok <> ""
      /\ verify tok = Some id /\ Gate.findById db id = Some s
      /\ s.(isApproved) = true /\ s.(status) = "approved"
      /\ Gate.guarded verify handler authorization db = handler s)
   \/ (exists r, Gate.guarded verify handler authorization db = (r, None)
      /\ (res_code r = 401 \/ res_code r = 403 \/ res_code r = 404)))
  /\ (forall tok id s, Gate.bearer_token authorization = Some tok -> tok <> "" ->
      verify tok = Some id -> Gate.findById db id = Some s ->
      (s.(isApproved) = false \/ s.(status) <> "approved") ->
      Gate.guarded verify handler authorization db
      = (mkResponse 403 "Seller account not approved. Please wait for admin approval."
           [("status", JStr s.(status))], None)).
Proof.
  unfold Gate.guarded, Gate.requireApprovedSeller. split.
  - destruct (Gate.bearer_token authorization) as [tok|] eqn:Htok;
      [|right; eexists; split; [reflexivity|simpl; auto]].
    unfold truthy_str. destruct (String.eqb_spec tok "") as [Hempty|Hne];
      [right; eexists; split; [reflexivity|simpl; auto]|].
    simpl negb. cbv iota. unfold Signup.get.
    destruct (verify tok) as [id|] eqn:Hv;
      [|right; eexists; split; [reflexivity|simpl; auto]].
    destruct (Gate.findById db id) as [s|] eqn:Hs;
      [|right; eexists; split; [reflexivity|simpl; auto]].
    destruct (isApproved s) eqn:Ha; simpl negb;
      [|right; eexists; split; [reflexivity|simpl; auto]].
    destruct (String.eqb_spec (status s) "approved") as [Hst|Hst]; simpl negb; cbv iota.
    + left. exists tok, id, s. repeat split; assumption.
    + right. eexists; split; [reflexivity|simpl; auto].
  - intros tok id s Htok Hne Hv Hs Hna. rewrite Htok.
    unfold truthy_str. destruct (String.eqb_spec tok "") as [E|_]; [contradiction|].
    simpl negb. cbv iota. unfold Signup.get. rewrite Hv, Hs.
    destruct Hna as [Ha|Hst].
    + rewrite Ha. reflexivity.
    + destruct (isApproved s); simpl negb;
        [destruct (String.eqb_spec (status s) "approved"); [contradiction|]|];
        reflexivity.
Qed.

(** ** Notification retry *)

(** The retrying sender does not retry a failure that is not transient:
    one provider call, and its error is thrown. *)
Lemma sendEmail_non_transient_not_retried (env : Notify.MailEnv) (p : Notify.Provider)
  (e : Notify.ProviderError) :
  truthy_str env.(Notify.ADMIN_EMAIL) = true ->
  env.(Notify.oauth_configured) = true ->
  p 1%nat = Notify.Failed e ->
  Notify.isNetworkError e = false ->
  Notify.sendEmailViaGmailAPI env p = Notify.mkTrace (Notify.Thrown e) [Notify.Failed e] [].
Proof.
  intros Hadm Hoauth H1 Hn.
  unfold Notify.sendEmailViaGmailAPI. rewrite Hadm. simpl negb. cbv iota.
  unfold Notify.retryWithBackoff. simpl. unfold Notify.gmail_send.
  rewrite Hoauth, H1, Hn. reflexivity.
Qed.

(** The retrying sender, on a provider that fails transiently on its
    first two calls and delivers on the third: it succeeds, after backoff
    delays of 2000 and 4000 ms, with exactly one delivery. *)
Lemma sendEmail_two_transient_then_success (env : Notify.MailEnv) (p : Notify.Provider)
  (e1 e2 : Notify.ProviderError) :
  truthy_str env.(Notify.ADMIN_EMAIL) = true ->
  env.(Notify.oauth_configured) = true ->
  p 1%nat = Notify.Failed e1 -> Notify.isNetworkError e1 = true ->
  p 2%nat = Notify.Failed e2 -> Notify.isNetworkError e2 = true ->
  p 3%nat = Notify.Delivered ->
  Notify.sendEmailViaGmailAPI env p
  = Notify.mkTrace Notify.Sent [Notify.Failed e1; Notify.Failed e2; Notify.Delivered]
      [2000; 4000].
Proof.
  intros Hadm Hoauth H1 Hn1 H2 Hn2 H3.
  unfold Notify.sendEmailViaGmailAPI. rewrite Hadm. simpl negb. cbv iota.
  unfold Notify.retryWithBackoff. simpl. unfold Notify.gmail_send.
  rewrite Hoauth, H1, Hn1, H2, Hn2, H3. reflexivity.
Qed.

(** Claim C5 (fails on the code). With the e-mail service configured and
    a provider failing with a transient (network) error on its first two
    calls and delivering on the third, the approval and rejection e-mails
    succeed with exactly one delivery, but the OTP e-mail path
    ([sendOTPToEmail], through [sendOTPEmail]) makes one call only and
    throws the first transient error: it is never retried. *)
Theorem otp_email_not_retried (env : Notify.MailEnv) (p : Notify.Provider)
  (e1 e2 : Notify.ProviderError)
  (Hadm : truthy_str env.(Notify.ADMIN_EMAIL) = true)
  (Hoauth : env.(Notify.oauth_configured) = true)
  (H1 : p 1%nat = Notify.Failed e1) (Hn1 : Notify.isNetworkError e1 = true)
  (H2 : p 2%nat = Notify.Failed e2) (Hn2 : Notify.isNetworkError e2 = true)
  (H3 : p 3%nat = Notify.Delivered) :
  Notify.succeeded (Notify.sendApprovalEmail env p) = true
  /\ Notify.deliveries (Notify.sendApprovalEmail env p) = 1%nat
  /\ Notify.succeeded (Notify.sendRejectionEmail env p) = true
  /\ Notify.deliveries (Notify.sendRejectionEmail env p) = 1%nat
  /\ Notify.result (Notify.sendOTPToEmail env p) = Notify.Thrown e1
  /\ Notify.outcomes (Notify.sendOTPToEmail env p) = [Notify.Failed e1]
  /\ Notify.deliveries (Notify.sendOTPToEmail env p) = 0%nat.
Proof.
  pose proof (sendEmail_two_transient_then_success env p e1 e2 Hadm Hoauth H1 Hn1 H2 Hn2 H3)
    as Hs.
  unfold Notify.sendApprovalEmail, Notify.sendRejectionEmail. rewrite Hs.
  unfold Notify.sendOTPToEmail, Notify.sendOTPEmail. rewrite Hadm, Hoauth, H1.
  repeat split; reflexivity.
Qed.

(** ** Witnesses: the theorems with hypotheses, applied to concrete inputs *)

Lemma verify_email_never_rate_limited_witness :
  res_code (fst (Otp.send_otp (Some "asha@example.com") (Some Scenario.sample_seller)
                   0 23456 true)) = 200
  /\ Otp.generateOTP 23456 = "123456"
  /\ Scenario.verify_seq [("000000", 1); ("000000", 2); ("000000", 3); ("000000", 4);
                          ("000000", 5); ("000000", 6); ("123456", 7)] (save 0 Scenario.sample_seller)
     = ([500; 500; 500; 500; 500; 500; 500], save 0 Scenario.sample_seller)
  /\ snd (Otp.send_otp (Some "asha@example.com") (Some Scenario.sample_seller) 0 23456 true)
     = Some (save 0 Scenario.sample_seller).
Proof.
  split; [reflexivity|]. split; [reflexivity|].
  destruct (verify_email_never_rate_limited (save 0 Scenario.sample_seller)
              [("000000", 1); ("000000", 2); ("000000", 3); ("000000", 4);
               ("000000", 5); ("000000", 6); ("123456", 7)] eq_refl
              ltac:(repeat constructor)) as [Hseq _].
  split; [exact Hseq|].
  destruct (verify_email_never_rate_limited Scenario.sample_seller [] eq_refl
              ltac:(constructor)) as [_ Hsend].
  exact (Hsend 0 23456 true).
Defined.

Lemma withdrawal_over_balance_refused_witness :
  0 < 50 /\ 50 > Withdraw.availableBalance (Scenario.approved_seller 40 [])
  /\ Withdraw.post_withdrawals (Some 50) (Scenario.approved_seller 40 []) 9
     = (mkResponse 400 "Insufficient balance" [("availableBalance", JNum 40)], None).
Proof.
  assert (Hp : 0 < 50) by lia.
  assert (Hg : 50 > Withdraw.availableBalance (Scenario.approved_seller 40 []))
    by (vm_compute; reflexivity).
  split; [exact Hp|split; [exact Hg|]].
  destruct (withdrawal_over_balance_refused (Scenario.approved_seller 40 []) 50 9 Hp Hg)
    as [_ H]. exact H.
Defined.

Lemma withdrawal_exact_balance_witness :
  0 < Withdraw.availableBalance
        (Scenario.approved_seller 100 [mkWithdrawal 30 0 "pending" Scenario.sample_bank None None])
  /\ res_code (fst (Withdraw.post_withdrawals (Some 70)
        (Scenario.approved_seller 100 [mkWithdrawal 30 0 "pending" Scenario.sample_bank None None]) 9))
     = 201.
Proof.
  assert (Hp : 0 < Withdraw.availableBalance
        (Scenario.approved_seller 100 [mkWithdrawal 30 0 "pending" Scenario.sample_bank None None]))
    by (vm_compute; reflexivity).
  split; [exact Hp|].
  pose proof (withdrawal_exact_balance _ 9 Hp) as H. cbv zeta in H.
  change 70 with (Withdraw.availableBalance
        (Scenario.approved_seller 100 [mkWithdrawal 30 0 "pending" Scenario.sample_bank None None])).
  rewrite H. reflexivity.
Defined.

Lemma reject_frame_witness :
  Admin.reject (Some "Invalid documents") (Some (Scenario.approved_seller 100 [])) 9
    Scenario.configured_env Scenario.refusing_provider
  = (fst (Admin.reject (Some "Invalid documents") (Some (Scenario.approved_seller 100 [])) 9
            Scenario.configured_env Scenario.refusing_provider),
     Some (save 9 (set_rejectionReason (Some "Invalid documents")
             (set_isApproved false (set_status "rejected" (Scenario.approved_seller 100 []))))))
  /\ (save 9 (set_rejectionReason (Some "Invalid documents")
        (set_isApproved false (set_status "rejected" (Scenario.approved_seller 100 [])))))
       .(approvedAt) = Some 0.
Proof.
  assert (H : Admin.reject (Some "Invalid documents") (Some (Scenario.approved_seller 100 [])) 9
    Scenario.configured_env Scenario.refusing_provider
  = (fst (Admin.reject (Some "Invalid documents") (Some (Scenario.approved_seller 100 [])) 9
            Scenario.configured_env Scenario.refusing_provider),
     Some (save 9 (set_rejectionReason (Some "Invalid documents")
             (set_isApproved false (set_status "rejected" (Scenario.approved_seller 100 []))))))).
  { vm_compute. reflexivity. }
  split; [exact H|].
  destruct (reject_frame _ _ _ _ _ _ _ H) as [s [Hs Hs']].
  injection Hs as <-. rewrite Hs'. reflexivity.
Defined.

Lemma notification_failure_does_not_abort_witness :
  Notify.result (Notify.sendApprovalEmail Scenario.configured_env Scenario.refusing_provider)
    = Notify.Thrown Scenario.auth_error
  /\ Notify.result (Notify.sendOTPToEmail Scenario.configured_env Scenario.refusing_provider)
    = Notify.Thrown Scenario.auth_error
  /\ res_code (fst (Admin.approve (Some Scenario.sample_seller) 9
                     Scenario.configured_env Scenario.refusing_provider)) = 200
  /\ res_code (fst (Signup.signup Scenario.demo_hash Scenario.demo_jwt_sign
                     [Scenario.sample_seller] Scenario.signup_request 2 9 23456
                     Scenario.configured_env Scenario.refusing_provider)) = 201.
Proof.
  assert (Hr : "Invalid documents" <> "") by discriminate.
  assert (Hf : Signup.all_fields_present Scenario.signup_request = true) by reflexivity.
  assert (He : Signup.findOne_email [Scenario.sample_seller]
                 (Signup.get Scenario.signup_request.(Signup.r_email)) = None)
    by (vm_compute; reflexivity).
  assert (Ha : Signup.findOne_aadhaar [Scenario.sample_seller]
                 (Signup.get Scenario.signup_request.(Signup.r_aadhaarNumber)) = None)
    by (vm_compute; reflexivity).
  destruct (notification_failure_does_not_abort Scenario.sample_seller "Invalid documents" Hr
              [Scenario.sample_seller] Scenario.signup_request 2 9 23456
              Scenario.demo_hash Scenario.demo_jwt_sign Hf He Ha
              Scenario.configured_env Scenario.refusing_provider)
    as [[Happ _] [_ [Hsign _]]].
  split; [vm_compute; reflexivity|].
  split; [vm_compute; reflexivity|].
  split; [exact Happ|exact Hsign].
Defined.

Lemma otp_email_not_retried_witness :
  Notify.result (Notify.sendOTPToEmail Scenario.configured_env Scenario.flaky_provider)
    = Notify.Thrown Scenario.timeout_error
  /\ Notify.deliveries (Notify.sendApprovalEmail Scenario.configured_env Scenario.flaky_provider)
    = 1%nat.
Proof.
  destruct (otp_email_not_retried Scenario.configured_env Scenario.flaky_provider
              Scenario.timeout_error Scenario.timeout_error
              eq_refl eq_refl eq_refl eq_refl eq_refl eq_refl eq_refl)
    as [_ [Hd [_ [_ [Hotp _]]]]].
  split; [exact Hotp|exact Hd].
Defined.

(** * Further properties of the code *)

(** ** The retry loop, for any provider and any [maxRetries] *)

Lemma retry_go_nonempty (fn : Notify.Provider) (m : nat) (d : Z) (a fuel : nat) :
  (0 < fuel)%nat -> Notify.outcomes (Notify.retry_go fn m d a fuel) <> [].
Proof.
  destruct fuel as [|fuel]; [lia|]. intros _. simpl.
  destruct (fn a) as [|e]; simpl; [discriminate|].
  destruct (Nat.eqb a m || negb (Notify.isNetworkError e)); simpl; discriminate.
Qed.

(** The loop from attempt [a] with [fuel = m - a + 1] iterations left:
    the calls are [fn a], [fn (a+1)], ... in order, all but the last a
    transient failure, one backoff delay [d * 2^(j-1)] after each retried
    attempt [j]; the last call decides the result. *)
Lemma retry_go_shape (fn : Notify.Provider) (m : nat) (d : Z) (a fuel : nat) :
  (1 <= a)%nat -> (a + fuel = S m)%nat -> (0 < fuel)%nat ->
  let t := Notify.retry_go fn m d a fuel in
  exists pre o,
    Notify.outcomes t = (pre ++ [o])%list
    /\ Notify.outcomes t = map fn (seq a (length (Notify.outcomes t)))
    /\ (length (Notify.outcomes t) <= fuel)%nat
    /\ forallb transient_failure pre = true
    /\ Notify.delays t = map (fun j => d * 2 ^ (Z.of_nat j - 1)) (seq a (length pre))
    /\ match o with
       | Notify.Delivered => Notify.result t = Notify.Sent
       | Notify.Failed e => Notify.result t = Notify.Thrown e
           /\ (Notify.isNetworkError e = false \/ length (Notify.outcomes t) = fuel)
       end.
Proof.
  revert a. induction fuel as [|fuel IH]; intros a Ha Hsum Hf; [lia|].
  simpl. destruct (fn a) as [|e] eqn:Hfa.
  - exists [], Notify.Delivered. simpl. rewrite Hfa.
    repeat split; try reflexivity; lia.
  - destruct (Nat.eqb a m || negb (Notify.isNetworkError e)) eqn:Hc.
    + exists [], (Notify.Failed e). simpl. rewrite Hfa.
      repeat split; try reflexivity; try lia.
      apply orb_true_iff in Hc. destruct Hc as [Hc|Hc].
      * apply Nat.eqb_eq in Hc. right. lia.
      * left. apply negb_true_iff in Hc. exact Hc.
    + apply orb_false_iff in Hc. destruct Hc as [Ham Hn].
      apply Nat.eqb_neq in Ham. apply negb_false_iff in Hn.
      assert (Hfuel : (0 < fuel)%nat) by lia.
      destruct (IH (S a) ltac:(lia) ltac:(lia) Hfuel) as [pre [o [Hout [Hmap [Hlen [Hpre [Hdel Ho]]]]]]].
      set (t := Notify.retry_go fn m d (S a) fuel) in *.
      exists (Notify.Failed e :: pre), o. simpl.
      repeat split.
      * rewrite Hout. reflexivity.
      * rewrite Hfa. f_equal. exact Hmap.
      * lia.
      * rewrite Hn. exact Hpre.
      * rewrite Hdel. reflexivity.
      * destruct o as [|e']; [exact Ho|].
        destruct Ho as [Hr [Hne|Hl]]; split; [exact Hr|left; exact Hne|exact Hr|right; lia].
Qed.

(** [retryWithBackoff(fn, m, d)] with [m >= 1]: the calls made are
    [fn 1, ..., fn k] in order, for some [1 <= k <= m]; every call but the
    last failed with a transient (network) error; the result is success
    exactly when the last call delivered, so at most one delivery occurs;
    a thrown error is the last call's, and either it is not transient or
    all [m] attempts were used. With [m = 0] no call is made and the
    result is [undefined]. *)
Theorem retryWithBackoff_attempts (fn : Notify.Provider) (m : nat) (d : Z) :
  let t := Notify.retryWithBackoff fn m d in
  (m = 0%nat -> Notify.result t = Notify.Undefined /\ Notify.outcomes t = [])
  /\ ((1 <= m)%nat ->
      exists k, (1 <= k <= m)%nat
        /\ Notify.outcomes t = map fn (seq 1 k)
        /\ forallb transient_failure (firstn (k - 1) (Notify.outcomes t)) = true
        /\ (Notify.deliveries t <= 1)%nat
        /\ (Notify.result t = Notify.Sent <-> nth (k - 1) (Notify.outcomes t) Notify.Delivered = Notify.Delivered)
        /\ (forall e, Notify.result t = Notify.Thrown e ->
              nth (k - 1) (Notify.outcomes t) Notify.Delivered = Notify.Failed e
              /\ (Notify.isNetworkError e = false \/ k = m))).
Proof.
  intro t. split.
  - intros ->. split; reflexivity.
  - intro Hm. unfold t, Notify.retryWithBackoff.
    destruct (retry_go_shape fn m d 1 m ltac:(lia) ltac:(lia) ltac:(lia))
      as [pre [o [Hout [Hmap [Hlen [Hpre [_ Ho]]]]]]].
    set (tt := Notify.retry_go fn m d 1 m) in *.
    assert (Hk : length (Notify.outcomes tt) = S (length pre))
      by (rewrite Hout, length_app; simpl; lia).
    exists (S (length pre)). rewrite Hk in Hmap, Hlen.
    assert (Hfirst : firstn (S (length pre) - 1) (Notify.outcomes tt) = pre).
    { rewrite Hout. replace (S (length pre) - 1)%nat with (length pre) by lia.
      rewrite firstn_app, firstn_all, Nat.sub_diag. simpl. apply app_nil_r. }
    assert (Hlast : nth (S (length pre) - 1) (Notify.outcomes tt) Notify.Delivered = o).
    { rewrite Hout. replace (S (length pre) - 1)%nat with (length pre) by lia.
      rewrite app_nth2 by lia. rewrite Nat.sub_diag. reflexivity. }
    assert (Hpre_nd : filter Notify.delivered pre = []).
    { clear -Hpre. induction pre as [|x pre IHp]; [reflexivity|].
      simpl in Hpre. apply andb_true_iff in Hpre. destruct Hpre as [Hx Hr].
      destruct x; [discriminate|]. simpl. exact (IHp Hr). }
    split; [lia|]. split; [exact Hmap|]. split; [rewrite Hfirst; exact Hpre|].
    split.
    { unfold Notify.deliveries. rewrite Hout, filter_app, Hpre_nd. simpl.
      destruct o; simpl; lia. }
    split; [split|].
    + intro Hs. rewrite Hlast. destruct o as [|e]; [reflexivity|].
      destruct Ho as [Hr _]. rewrite Hs in Hr. discriminate.
    + rewrite Hlast. intros ->. exact Ho.
    + intros e He. rewrite Hlast. destruct o as [|e'].
      * rewrite Ho in He. discriminate.
      * destruct Ho as [Hr Hw]. rewrite Hr in He. injection He as ->.
        split; [reflexivity|]. destruct Hw as [Hw|Hw]; [left; exact Hw|right; lia].
Qed.

(** The backoff schedule of [retryWithBackoff(fn, m, d)] with [m >= 1]:
    after the [j]-th attempt is retried the loop waits [d * 2^(j-1)] ms, so
    the delays are [d, 2d, 4d, ...], one fewer than the calls made. *)
Theorem retryWithBackoff_delays (fn : Notify.Provider) (m : nat) (d : Z) :
  (1 <= m)%nat ->
  let t := Notify.retryWithBackoff fn m d in
  Notify.delays t = map (fun j => d * 2 ^ Z.of_nat j) (seq 0 (length (Notify.outcomes t) - 1)).
Proof.
  intros Hm t. unfold t, Notify.retryWithBackoff.
  destruct (retry_go_shape fn m d 1 m ltac:(lia) ltac:(lia) ltac:(lia))
    as [pre [o [Hout [_ [_ [_ [Hdel _]]]]]]].
  rewrite Hdel, Hout, length_app. simpl.
  replace (length pre + 1 - 1)%nat with (length pre) by lia.
  rewrite <- seq_shift, map_map. apply map_ext. intro j. f_equal. f_equal. lia.
Qed.

(** ** Mail configuration errors *)

(** Without [ADMIN_EMAIL] every send (approval, rejection, OTP) throws
    "Missing ADMIN_EMAIL" before the provider is called. With
    [ADMIN_EMAIL] set but OAuth missing, [sendEmailViaGmailAPI] makes one
    attempt, whose error is not a network error, so it throws at once with
    no retry and no delay; [sendOTPEmail] throws the same error without
    calling the provider. No e-mail is delivered in either case. *)
Theorem mail_config_errors (env : Notify.MailEnv) (p : Notify.Provider) :
  (truthy_str env.(Notify.ADMIN_EMAIL) = false ->
     Notify.sendApprovalEmail env p = Notify.mkTrace (Notify.Thrown Notify.missing_admin_email) [] []
     /\ Notify.sendRejectionEmail env p = Notify.mkTrace (Notify.Thrown Notify.missing_admin_email) [] []
     /\ Notify.sendOTPToEmail env p = Notify.mkTrace (Notify.Thrown Notify.missing_admin_email) [] [])
  /\ (truthy_str env.(Notify.ADMIN_EMAIL) = true -> env.(Notify.oauth_configured) = false ->
     Notify.sendEmailViaGmailAPI env p
       = Notify.mkTrace (Notify.Thrown Notify.missing_oauth) [Notify.Failed Notify.missing_oauth] []
     /\ Notify.sendOTPToEmail env p = Notify.mkTrace (Notify.Thrown Notify.missing_oauth) [] []).
Proof.
  split.
  - intro Ha. unfold Notify.sendApprovalEmail, Notify.sendRejectionEmail,
      Notify.sendOTPToEmail, Notify.sendEmailViaGmailAPI, Notify.sendOTPEmail.
    rewrite Ha. repeat split.
  - intros Ha Ho. unfold Notify.sendOTPToEmail, Notify.sendEmailViaGmailAPI, Notify.sendOTPEmail.
    rewrite Ha, Ho. split; [|reflexivity].
    unfold Notify.retryWithBackoff. simpl. unfold Notify.gmail_send. rewrite Ho. reflexivity.
Qed.

(** ** Format of the generated OTP *)

Lemma of_uint_acc_uval (u : Decimal.uint) (acc : positive) :
  Z.pos (Pos.of_uint_acc u acc) = uval u (Z.pos acc).
Proof.
  revert acc. induction u; intro acc; cbn [Pos.of_uint_acc uval]; [reflexivity| ..];
    rewrite IHu; f_equal; rewrite ?Pos2Z.inj_add, ?Pos2Z.inj_mul; lia.
Qed.

Lemma digit_cases (d : Z) : 0 <= d <= 9 ->
  d = 0 \/ d = 1 \/ d = 2 \/ d = 3 \/ d = 4 \/ d = 5 \/ d = 6 \/ d = 7 \/ d = 8 \/ d = 9.
Proof. lia. Qed.

Lemma uval_dig (d : Z) (u : Decimal.uint) (acc : Z) :
  0 <= d <= 9 -> uval (dig d u) acc = uval u (10 * acc + d).
Proof.
  intro Hd. destruct (digit_cases d Hd) as [ -> | [ -> | [ -> | [ -> | [ -> | [ -> | [ -> | [ -> | [ -> | -> ] ] ] ] ] ] ] ] ];
    simpl; f_equal; lia.
Qed.

Lemma uval_udigits (k : nat) (n acc : Z) :
  0 <= n -> uval (udigits k n) acc = acc * 10 ^ Z.of_nat k + n mod 10 ^ Z.of_nat k.
Proof.
  intro Hn. revert acc. induction k as [|k IH]; intro acc.
  - simpl. rewrite Z.mod_1_r. lia.
  - simpl udigits. rewrite uval_dig by (pose proof (Z.mod_pos_bound (n / 10 ^ Z.of_nat k) 10); lia).
    rewrite IH. rewrite Nat2Z.inj_succ, Z.pow_succ_r by lia.
    rewrite (Z.mul_comm 10 (10 ^ Z.of_nat k)).
    rewrite (Z.rem_mul_r n (10 ^ Z.of_nat k) 10) by (try apply Z.pow_nonzero; lia).
    ring.
Qed.

Lemma unorm_dig (d : Z) (u : Decimal.uint) :
  d <> 0 -> Decimal.unorm (dig d u) = dig d u.
Proof.
  intro Hd. unfold dig.
  destruct d as [|p|p]; [contradiction| |reflexivity].
  repeat (destruct p as [p|p|]; try reflexivity).
Qed.

Lemma of_uint_dig (d : Z) (u : Decimal.uint) :
  1 <= d <= 9 -> Pos.of_uint (dig d u) = Npos (Pos.of_uint_acc u (Z.to_pos d)).
Proof.
  intro Hd. destruct (digit_cases d ltac:(lia)) as [ -> | [ -> | [ -> | [ -> | [ -> | [ -> | [ -> | [ -> | [ -> | -> ] ] ] ] ] ] ] ] ];
    try lia; reflexivity.
Qed.

(** [Pos.to_uint] of a six-digit number is its six digits. *)
Lemma to_uint_six_digits (n : Z) :
  100000 <= n <= 999999 -> Pos.to_uint (Z.to_pos n) = udigits 6 n.
Proof.
  intro Hn.
  set (d5 := (n / 10 ^ Z.of_nat 5) mod 10).
  assert (Hd5 : d5 = n / 100000) by (unfold d5; simpl; apply Z.mod_small; split;
    [apply Z.div_pos; lia| apply Z.div_lt_upper_bound; lia]).
  assert (H5 : 1 <= d5 <= 9) by (rewrite Hd5; split;
    [apply Z.div_le_lower_bound; lia| apply Z.lt_succ_r, Z.div_lt_upper_bound; lia]).
  assert (Hof : Pos.of_uint (udigits 6 n) = Npos (Z.to_pos n)).
  { change (udigits 6 n) with (dig d5 (udigits 5 n)). rewrite of_uint_dig by exact H5.
    f_equal. apply Pos2Z.inj. rewrite of_uint_acc_uval, Z2Pos.id by lia.
    rewrite Z2Pos.id by lia. rewrite uval_udigits by lia. rewrite Hd5.
    change (10 ^ Z.of_nat 5) with 100000.
    pose proof (Z.div_mod n 100000 ltac:(lia)). lia. }
  pose proof (DecimalPos.Unsigned.to_of (udigits 6 n)) as Hto.
  rewrite Hof in Hto. simpl in Hto. rewrite Hto.
  change (udigits 6 n) with (dig d5 (udigits 5 n)). apply unorm_dig. lia.
Qed.

Lemma nilzero_dig (d : Z) (u : Decimal.uint) :
  NilZero.string_of_uint (dig d u) = NilEmpty.string_of_uint (dig d u).
Proof.
  unfold dig. destruct d as [|p|p]; [reflexivity| |reflexivity].
  repeat (destruct p as [p|p|]; try reflexivity).
Qed.

Lemma string_of_uint_dig (d : Z) (u : Decimal.uint) :
  NilEmpty.string_of_uint (dig d u) = String (digit_char d) (NilEmpty.string_of_uint u).
Proof.
  unfold dig, digit_char. destruct d as [|p|p]; [reflexivity| |reflexivity].
  repeat (destruct p as [p|p|]; try reflexivity).
Qed.

Lemma digit_char_digit (d : Z) : is_digit (digit_char d) = true.
Proof.
  unfold digit_char. destruct d as [|p|p]; [reflexivity| |reflexivity].
  repeat (destruct p as [p|p|]; try reflexivity).
Qed.

Lemma digit_char_nonzero (d : Z) : d <> 0 -> Ascii.eqb (digit_char d) "0"%char = false.
Proof.
  intro H. unfold digit_char. destruct d as [|p|p]; [contradiction| |reflexivity].
  repeat (destruct p as [p|p|]; try reflexivity).
Qed.

Lemma string_of_udigits (k : nat) (n : Z) :
  String.length (NilEmpty.string_of_uint (udigits k n)) = k
  /\ forallb is_digit (list_ascii_of_string (NilEmpty.string_of_uint (udigits k n))) = true.
Proof.
  induction k as [|k [IHl IHd]]; [split; reflexivity|].
  simpl udigits. rewrite string_of_uint_dig. simpl.
  rewrite IHl, digit_char_digit, IHd. split; reflexivity.
Qed.

(** [generateOTP]: for every draw [r] in [0, 900000) (the range of
    [Math.random() * 900000] rounded down) the code is a string of six
    decimal digits not starting with 0. *)
Theorem generateOTP_six_digits (r : Z) :
  0 <= r < 900000 -> six_digit_code (Otp.generateOTP r) = true.
Proof.
  intro Hr. unfold Otp.generateOTP.
  replace (Z.to_int (100000 + r)) with (Decimal.Pos (Pos.to_uint (Z.to_pos (100000 + r))))
    by (destruct (100000 + r) eqn:E; [lia|reflexivity|lia]).
  rewrite to_uint_six_digits by lia. unfold NilZero.string_of_int. cbv beta iota.
  set (n := 100000 + r). set (d5 := (n / 10 ^ Z.of_nat 5) mod 10).
  change (udigits 6 n) with (dig d5 (udigits 5 n)).
  rewrite nilzero_dig, string_of_uint_dig.
  destruct (string_of_udigits 5 n) as [Hl Hd].
  unfold six_digit_code. cbn [list_ascii_of_string String.length forallb].
  rewrite Hl, digit_char_digit, Hd.
  assert (Hd5 : d5 = n / 100000).
  { unfold d5. change (10 ^ Z.of_nat 5) with 100000. apply Z.mod_small.
    split; [apply Z.div_pos|apply Z.div_lt_upper_bound]; unfold n; lia. }
  assert (1 <= n / 100000) by (apply Z.div_le_lower_bound; unfold n; lia).
  rewrite digit_char_nonzero by lia. reflexivity.
Qed.

(** ** Authentication header, lookups by id, and the seller collection *)

Lemma split_space_no_space (tok : string) :
  no_space tok = true -> Gate.split_space tok = [tok].
Proof.
  induction tok as [|c rest IH]; intro H; [reflexivity|].
  unfold no_space in H. simpl in H. apply andb_true_iff in H as [Hc Hr].
  apply negb_true_iff in Hc. simpl. rewrite Hc, (IH Hr). reflexivity.
Qed.

(** The header [Authorization: Bearer <token>] yields the token. *)
Lemma bearer_token_bearer (tok : string) :
  no_space tok = true -> Gate.bearer_token (Some ("Bearer " ++ tok)) = Some tok.
Proof.
  intro H. unfold Gate.bearer_token. simpl. rewrite (split_space_no_space tok H). reflexivity.
Qed.

Lemma truthy_nonempty (s : string) : s <> "" -> truthy_str (Some s) = true.
Proof.
  intro H. unfold truthy_str. destruct (String.eqb_spec s ""); [contradiction|reflexivity].
Qed.

Lemma findById_unique (db : Signup.DB) (s : Seller) :
  NoDup (map _id db) -> In s db -> Gate.findById db s.(_id) = Some s.
Proof.
  induction db as [|x db IH]; intros Hnd Hin; [destruct Hin|].
  inversion Hnd as [|i l Hx Hnd']; subst. simpl.
  destruct Hin as [->|Hin].
  - rewrite Nat.eqb_refl. reflexivity.
  - destruct (Nat.eqb_spec (_id x) (_id s)) as [E|_].
    + exfalso. apply Hx. rewrite E. apply in_map. exact Hin.
    + apply IH; assumption.
Qed.

(** After [seller.save()] of a document present in the collection, the
    lookup by its id finds the saved version. *)
Lemma findById_db_replace (db : Signup.DB) (s s' : Seller) :
  In s db -> s'.(_id) = s.(_id) -> Gate.findById (Signup.db_replace db s') s.(_id) = Some s'.
Proof.
  intros Hin Hid. induction db as [|x db IH]; [destruct Hin|].
  unfold Gate.findById, Signup.db_replace in *. simpl.
  destruct (Nat.eqb_spec (_id x) (_id s')) as [E|E].
  - rewrite Hid, Nat.eqb_refl. reflexivity.
  - destruct (Nat.eqb_spec (_id x) (_id s)) as [E2|E2]; [rewrite <- Hid in E2; contradiction|].
    destruct Hin as [->|Hin]; [contradiction|]. exact (IH Hin).
Qed.

Lemma db_replace_ids (db : Signup.DB) (s : Seller) :
  map _id (Signup.db_replace db s) = map _id db.
Proof.
  induction db as [|x db IH]; [reflexivity|]. simpl.
  destruct (Nat.eqb_spec (_id x) (_id s)) as [E|_]; simpl; rewrite IH; [rewrite E|]; reflexivity.
Qed.

(** ** Login, status and the approval gate *)

(** POST /login does not look at the approval status: any seller whose
    password matches gets 200 and a token, whatever their status or e-mail
    verification. For a seller not approved, that token opens no guarded
    route (403 with the seller's status, the handler never runs), while
    GET /status, which has no gate, answers 200 with the same status. *)
Theorem login_then_gate (compare : string -> string -> bool) (jwt_sign : nat -> string)
  (verify : string -> option nat) (db : Signup.DB) (e pw : string) (s : Seller) :
  NoDup (map _id db) ->
  Signup.findOne_email db e = Some s ->
  e <> "" -> pw <> "" ->
  compare pw s.(password) = true ->
  jwt_sign s.(_id) <> "" -> no_space (jwt_sign s.(_id)) = true ->
  verify (jwt_sign s.(_id)) = Some s.(_id) ->
  (s.(isApproved) = false \/ s.(status) <> "approved") ->
  SellerRoutes.login compare jwt_sign db (Some e) (Some pw)
    = mkResponse 200 "Login successful"
        [("status", JStr s.(status)); ("isApproved", JBool s.(isApproved));
         ("token", JStr (jwt_sign s.(_id)))]
  /\ (forall handler, Gate.guarded verify handler (Some ("Bearer " ++ jwt_sign s.(_id))) db
        = (gate_403 s.(status), None))
  /\ res_code (SellerRoutes.get_status verify (Some ("Bearer " ++ jwt_sign s.(_id))) db) = 200.
Proof.
  intros Hnd Hf He Hp Hc Ht Hns Hv Hna.
  assert (Hin : In s db) by (apply find_some in Hf; tauto).
  assert (Hid := findById_unique db s Hnd Hin).
  assert (Hb := bearer_token_bearer _ Hns).
  split; [|split].
  - unfold SellerRoutes.login. rewrite (truthy_nonempty e He), (truthy_nonempty pw Hp).
    simpl. rewrite Hf, Hc. reflexivity.
  - intro handler. unfold Gate.guarded, Gate.requireApprovedSeller.
    rewrite Hb, (truthy_nonempty _ Ht). simpl. rewrite Hv, Hid.
    replace (negb (isApproved s) || negb (String.eqb (status s) "approved")) with true.
    + reflexivity.
    + destruct Hna as [Ha|Hs]; [rewrite Ha; reflexivity|].
      apply String.eqb_neq in Hs. rewrite Hs. symmetry. apply orb_true_r.
  - unfold SellerRoutes.get_status. rewrite Hb, (truthy_nonempty _ Ht). simpl.
    rewrite Hv, Hid. reflexivity.
Qed.

(** Admin decisions and the gate, composed: once the decision is saved,
    the seller's token passes the gate after POST /:id/approve (whether or
    not the e-mail was verified or the approval e-mail sent) and after
    PUT /:id/status "active"; after POST /:id/reject or PUT /:id/status
    "inactive"/"suspended" it is refused with 403 and the new status. *)
Theorem admin_decision_then_gate (verify : string -> option nat) (jwt_sign : nat -> string)
  (db : Signup.DB) (s : Seller) (now : Z) (env : Notify.MailEnv) (p : Notify.Provider) :
  In s db ->
  jwt_sign s.(_id) <> "" -> no_space (jwt_sign s.(_id)) = true ->
  verify (jwt_sign s.(_id)) = Some s.(_id) ->
  let auth := Some ("Bearer " ++ jwt_sign s.(_id)) in
  (forall s', snd (Admin.approve (Some s) now env p) = Some s' ->
     Gate.requireApprovedSeller verify auth (Signup.db_replace db s') = Gate.Next s')
  /\ (forall reason s', snd (Admin.reject reason (Some s) now env p) = Some s' ->
     Gate.requireApprovedSeller verify auth (Signup.db_replace db s')
       = Gate.Refused (gate_403 "rejected"))
  /\ (forall ns s', snd (Admin.set_seller_status ns (Some s) now) = Some s' ->
     Gate.requireApprovedSeller verify auth (Signup.db_replace db s')
       = if String.eqb (Signup.get ns) "active" then Gate.Next s'
         else Gate.Refused (gate_403 (Signup.get ns))).
Proof.
  intros Hin Ht Hns Hv auth.
  assert (Hb := bearer_token_bearer _ Hns).
  assert (Hgate : forall s', s'.(_id) = s.(_id) ->
    Gate.requireApprovedSeller verify auth (Signup.db_replace db s')
    = if negb s'.(isApproved) || negb (String.eqb s'.(status) "approved")
      then Gate.Refused (gate_403 s'.(status)) else Gate.Next s').
  { intros s' Hid. unfold Gate.requireApprovedSeller, auth.
    rewrite Hb, (truthy_nonempty _ Ht). simpl. rewrite Hv.
    rewrite (findById_db_replace db s s' Hin Hid). reflexivity. }
  split; [|split].
  - intros s' H. unfold Admin.approve in H.
    destruct (Notify.result (Notify.sendApprovalEmail env p)); injection H as <-;
      rewrite Hgate by reflexivity; reflexivity.
  - intros reason s' H. unfold Admin.reject in H.
    destruct (truthy_str reason); [|discriminate]. simpl in H.
    destruct (Notify.result (Notify.sendRejectionEmail env p)); injection H as <-;
      rewrite Hgate by reflexivity; reflexivity.
  - intros ns s' H. unfold Admin.set_seller_status in H.
    destruct (Admin.valid_new_status ns) eqn:Hvalid; [|discriminate]. simpl in H.
    injection H as <-. rewrite Hgate by reflexivity.
    unfold Admin.valid_new_status in Hvalid. destruct ns as [v|]; [|discriminate].
    simpl in Hvalid. simpl Signup.get.
    destruct (String.eqb_spec v "active") as [Ea|Ha]; [subst v; reflexivity|].
    destruct (String.eqb_spec v "inactive") as [Ei|Hi]; [subst v; reflexivity|].
    destruct (String.eqb_spec v "suspended") as [Es|Hs]; [subst v; reflexivity|].
    simpl in Hvalid. discriminate.
Qed.

(** ** Signup *)

Lemma lower_ascii_idem (c : Ascii.ascii) :
  Signup.lower_ascii (Signup.lower_ascii c) = Signup.lower_ascii c.
Proof.
  destruct c as [b0 b1 b2 b3 b4 b5 b6 b7].
  destruct b0, b1, b2, b3, b4, b5, b6, b7; reflexivity.
Qed.

Lemma lowercase_idem (s : string) :
  Signup.lowercase (Signup.lowercase s) = Signup.lowercase s.
Proof.
  induction s as [|c s IH]; [reflexivity|]. simpl. rewrite lower_ascii_idem, IH. reflexivity.
Qed.

Lemma db_replace_fresh (db : Signup.DB) (n n' : Seller) :
  ~ In n.(_id) (map _id db) -> n'.(_id) = n.(_id) ->
  Signup.db_replace (db ++ [n])%list n' = (db ++ [n'])%list.
Proof.
  intros Hf Hid. induction db as [|x db IH].
  - simpl. rewrite Hid, Nat.eqb_refl. reflexivity.
  - simpl in *. destruct (Nat.eqb_spec (_id x) (_id n')) as [E|_].
    + exfalso. apply Hf. left. congruence.
    + f_equal. apply IH. tauto.
Qed.

(** What a successful signup stores: the collection gains exactly one
    document, the new seller (saved twice; the OTP assigned in between is
    not stored). The response carries no [isEmailVerified] key. *)
Lemma signup_success (hash : string -> string) (jwt_sign : nat -> string)
  (db : Signup.DB) (q : Signup.SignupReq) (fresh : nat) (now r : Z)
  (env : Notify.MailEnv) (p : Notify.Provider) :
  Signup.all_fields_present q = true ->
  Signup.findOne_email db (Signup.get q.(Signup.r_email)) = None ->
  Signup.findOne_aadhaar db (Signup.get q.(Signup.r_aadhaarNumber)) = None ->
  ~ In fresh (map _id db) ->
  let s2 := save now (Signup.new_seller hash q fresh now) in
  Signup.signup hash jwt_sign db q fresh now r env p
  = (mkResponse 201
       "Seller registered successfully. Please verify your email with the OTP sent to your email address."
       [("status", JStr "pending"); ("token", JStr (jwt_sign fresh))], (db ++ [s2])%list).
Proof.
  intros Hall He Ha Hf s2. unfold Signup.signup. rewrite Hall, He, Ha. simpl negb. cbv iota.
  unfold save_doc, set_doc_emailVerificationOTP, load, opt_key.
  cbn [doc doc_isEmailVerified option_map app].
  fold s2. rewrite (db_replace_fresh db (Signup.new_seller hash q fresh now) s2 Hf eq_refl).
  destruct (Notify.result (Notify.sendOTPToEmail env p)); reflexivity.
Qed.

(** POST /signup keeps the collection's uniqueness invariants: e-mails
    are stored lower-cased and pairwise distinct (so unique regardless of
    case, as the lookup lower-cases the request's address), Aadhaar numbers
    and ids are pairwise distinct; a refused signup leaves the collection
    unchanged. The new document's id is assumed fresh. *)
Theorem signup_keeps_uniqueness (hash : string -> string) (jwt_sign : nat -> string)
  (db : Signup.DB) (q : Signup.SignupReq) (fresh : nat) (now r : Z)
  (env : Notify.MailEnv) (p : Notify.Provider) :
  ~ In fresh (map _id db) ->
  NoDup (map _id db) -> NoDup (map email db) -> NoDup (map aadhaarNumber db) ->
  Forall (fun s => Signup.lowercase s.(email) = s.(email)) db ->
  let db' := snd (Signup.signup hash jwt_sign db q fresh now r env p) in
  NoDup (map _id db') /\ NoDup (map email db') /\ NoDup (map aadhaarNumber db')
  /\ Forall (fun s => Signup.lowercase s.(email) = s.(email)) db'
  /\ (res_code (fst (Signup.signup hash jwt_sign db q fresh now r env p)) <> 201 -> db' = db).
Proof.
  intros Hf Hid Hem Haa Hlow db'.
  destruct (Signup.all_fields_present q) eqn:Hall;
    [|unfold db', Signup.signup; rewrite Hall; repeat split; assumption].
  destruct (Signup.findOne_email db (Signup.get q.(Signup.r_email))) as [x|] eqn:He;
    [unfold db', Signup.signup; rewrite Hall, He; repeat split; assumption|].
  destruct (Signup.findOne_aadhaar db (Signup.get q.(Signup.r_aadhaarNumber))) as [x|] eqn:Ha;
    [unfold db', Signup.signup; rewrite Hall, He, Ha; repeat split; assumption|].
  unfold db'. rewrite (signup_success hash jwt_sign db q fresh now r env p Hall He Ha Hf).
  simpl fst. simpl snd. rewrite !map_app. simpl.
  repeat split.
  - apply NoDup_app; [exact Hid|constructor; [intros []|constructor]|].
    intros i Hi [<-|[]]. exact (Hf Hi).
  - apply NoDup_app; [exact Hem|constructor; [intros []|constructor]|].
    intros i Hi [<-|[]]. apply in_map_iff in Hi as [y [Hy Hin]].
    pose proof (find_none _ _ He y Hin) as Hn. simpl in Hn.
    apply String.eqb_neq in Hn. exact (Hn Hy).
  - apply NoDup_app; [exact Haa|constructor; [intros []|constructor]|].
    intros i Hi [<-|[]]. apply in_map_iff in Hi as [y [Hy Hin]].
    pose proof (find_none _ _ Ha y Hin) as Hn. simpl in Hn.
    apply String.eqb_neq in Hn. exact (Hn Hy).
  - apply Forall_app. split; [exact Hlow|]. constructor; [|constructor].
    simpl. apply lowercase_idem.
  - intro H. exfalso. apply H. reflexivity.
Qed.

(** ** Products *)

Lemma findProduct_some (products : list Products.Product) (id : nat) (p : Products.Product) :
  Products.findProduct products id = Some p -> In p products /\ p.(Products.p_id) = id.
Proof.
  intro H. apply find_some in H as [Hin Hid]. apply Nat.eqb_eq in Hid. tauto.
Qed.

(** With distinct product ids, the product a lookup finds is the only one
    with that id. *)
Lemma findProduct_unique (products : list Products.Product) (id : nat) (p x : Products.Product) :
  NoDup (map Products.p_id products) -> Products.findProduct products id = Some p ->
  In x products -> x.(Products.p_id) = id -> x = p.
Proof.
  intros Hnd Hf Hx Hxid. induction products as [|y ps IH]; [destruct Hx|].
  inversion Hnd as [|i l Hy Hnd']; subst. unfold Products.findProduct in Hf. simpl in Hf.
  destruct (Nat.eqb_spec (Products.p_id y) (Products.p_id x)) as [E|E].
  - injection Hf as <-. destruct Hx as [->|Hx]; [reflexivity|].
    exfalso. apply Hy. rewrite E. apply in_map. exact Hx.
  - destruct Hx as [->|Hx]; [contradiction|]. exact (IH Hnd' Hf Hx).
Qed.

(** PUT and DELETE /products/:productId never touch a product the seller
    does not own (another seller's, or an admin product): with distinct
    product ids, every such product is still in the list afterwards,
    unchanged. An update keeps every product's id, owner, category and
    creation date; a delete leaves [totalProducts] non-negative. *)
Theorem product_routes_respect_ownership (productId : nat) (q_name q_description : option string)
  (q_price q_stock : option Z) (q_status q_image q_instaVideo : option string)
  (products : list Products.Product) (seller : Seller) (now : Z) :
  NoDup (map Products.p_id products) ->
  let upd := snd (Products.update_product productId q_name q_description q_price q_stock
                    q_status q_image q_instaVideo products seller) in
  let del := Products.delete_product productId products seller now in
  (forall x, In x products -> x.(Products.p_sellerId) <> Some seller.(_id) ->
     In x upd /\ In x (snd (fst del)))
  /\ map (fun x => (Products.p_id x, Products.p_sellerId x, Products.p_category x,
                    Products.p_createdAt x)) upd
     = map (fun x => (Products.p_id x, Products.p_sellerId x, Products.p_category x,
                      Products.p_createdAt x)) products
  /\ (forall s', snd del = Some s' -> 0 <= s'.(totalProducts)).
Proof.
  intros Hnd upd del.
  split; [|split].
  - intros x Hx Hown. split.
    + unfold upd, Products.update_product.
      destruct (Products.findProduct products productId) as [p|] eqn:Hf; [|exact Hx].
      destruct (Products.p_sellerId p) as [sid|] eqn:Hs; [|exact Hx].
      destruct (negb (Nat.eqb sid (_id seller))) eqn:Hauth; [exact Hx|].
      cbv zeta.
      match goal with |- In x (snd (if ?c then _ else _)) => destruct c end; [exact Hx|].
      simpl. apply in_map_iff. exists x. split; [|exact Hx].
      destruct (Nat.eqb_spec (Products.p_id x) productId) as [E|]; [|reflexivity].
      exfalso. rewrite (findProduct_unique products productId p x Hnd Hf Hx E) in Hown.
      apply negb_false_iff, Nat.eqb_eq in Hauth. rewrite Hs, Hauth in Hown. contradiction.
    + unfold del, Products.delete_product.
      destruct (Products.findProduct products productId) as [p|] eqn:Hf; [|exact Hx].
      destruct (Products.p_sellerId p) as [sid|] eqn:Hs; [|exact Hx].
      destruct (negb (Nat.eqb sid (_id seller))) eqn:Hauth; [exact Hx|].
      simpl. apply filter_In. split; [exact Hx|].
      destruct (Nat.eqb_spec (Products.p_id x) productId) as [E|]; [|reflexivity].
      exfalso. rewrite (findProduct_unique products productId p x Hnd Hf Hx E) in Hown.
      apply negb_false_iff, Nat.eqb_eq in Hauth. rewrite Hs, Hauth in Hown. contradiction.
  - unfold upd, Products.update_product.
    destruct (Products.findProduct products productId) as [p|] eqn:Hf; [|reflexivity].
    destruct (Products.p_sellerId p) as [sid|] eqn:Hs; [|reflexivity].
    destruct (negb (Nat.eqb sid (_id seller))); [reflexivity|].
    cbv zeta.
    match goal with |- map _ (snd (if ?c then _ else _)) = _ => destruct c end; [reflexivity|].
    simpl. rewrite map_map. apply map_ext_in. intros x Hx.
    destruct (Nat.eqb_spec (Products.p_id x) productId) as [E|]; [|reflexivity].
    rewrite (findProduct_unique products productId p x Hnd Hf Hx E). simpl.
    rewrite Hs. reflexivity.
  - intros s' H. unfold del, Products.delete_product in H.
    destruct (Products.findProduct products productId); [|discriminate].
    destruct (Products.p_sellerId p); [|discriminate].
    destruct (negb (Nat.eqb n (_id seller))); [discriminate|].
    injection H as <-. simpl. lia.
Qed.

(** PUT /products/:productId on the seller's own product: a price of 0 is
    ignored (falsy, the price is kept) while a stock of 0 is stored (the
    handler tests [stock !== undefined]). *)
Theorem update_product_zero_price_zero_stock (productId : nat) (products : list Products.Product)
  (seller : Seller) (p : Products.Product) :
  Products.findProduct products productId = Some p ->
  p.(Products.p_sellerId) = Some seller.(_id) ->
  Products.product_status_ok p.(Products.p_status) = true ->
  exists p', Products.update_product productId None None (Some 0) (Some 0) None None None
               products seller
             = (json 200 "Product updated successfully",
                map (fun x => if Nat.eqb x.(Products.p_id) productId then p' else x) products)
    /\ p'.(Products.p_price) = p.(Products.p_price)
    /\ p'.(Products.p_stock) = 0
    /\ p'.(Products.p_id) = p.(Products.p_id).
Proof.
  intros Hf Hs Hok. unfold Products.update_product. rewrite Hf, Hs, Nat.eqb_refl.
  simpl. rewrite Hok. simpl. eexists. split; [reflexivity|]. simpl. repeat split.
Qed.

(** ** Ordering of query results *)

Section SortBy.
Context {A : Type} (le : A -> A -> bool).

Lemma insert_by_perm (x : A) (l : list A) : Permutation (insert_by le x l) (x :: l).
Proof.
  induction l as [|y t IH]; simpl; [reflexivity|].
  destruct (le x y); [reflexivity|].
  rewrite IH. apply perm_swap.
Qed.

Lemma sort_by_perm (l : list A) : Permutation (sort_by le l) l.
Proof.
  induction l as [|x t IH]; simpl; [reflexivity|].
  rewrite insert_by_perm. now apply perm_skip.
Qed.

Hypothesis le_total : forall a b, le a b = false -> le b a = true.

Lemma insert_by_sorted (x : A) (l : list A) :
  Sorted (fun a b => le a b = true) l ->
  Sorted (fun a b => le a b = true) (insert_by le x l).
Proof.
  induction 1 as [|y t Ht IH Hhd]; simpl.
  - repeat constructor.
  - destruct (le x y) eqn:Hxy.
    + constructor; [now constructor|now constructor].
    + constructor; [exact IH|].
      destruct t as [|z t']; simpl.
      * constructor. now apply le_total.
      * inversion Hhd; subst. destruct (le x z); constructor; [now apply le_total|assumption].
Qed.

Lemma sort_by_sorted (l : list A) : Sorted (fun a b => le a b = true) (sort_by le l).
Proof.
  induction l as [|x t IH]; simpl; [constructor|]. now apply insert_by_sorted.
Qed.

End SortBy.

Lemma Sorted_map_rel {A B : Type} (R1 : A -> A -> Prop) (R : B -> B -> Prop) (f : A -> B)
  (l : list A) :
  (forall a b, R1 a b -> R (f a) (f b)) -> Sorted R1 l -> Sorted R (map f l).
Proof.
  intros Himp. induction 1 as [|x t Ht IH Hhd]; simpl; constructor; [exact IH|].
  destruct Hhd; simpl; constructor; auto.
Qed.

Lemma NoDup_map_inj_in {A B : Type} (f : A -> B) (l : list A) (x y : A) :
  NoDup (map f l) -> In x l -> In y l -> f x = f y -> x = y.
Proof.
  induction l as [|z l IH]; intros Hnd Hx Hy E; [destruct Hx|].
  inversion Hnd as [|i l' Hz Hnd']; subst.
  destruct Hx as [<-|Hx]; destruct Hy as [<-|Hy]; try reflexivity.
  - exfalso. apply Hz. rewrite E. now apply in_map.
  - exfalso. apply Hz. rewrite <- E. now apply in_map.
  - exact (IH Hnd' Hx Hy E).
Qed.

(** PUT /orders/:orderId: with distinct order ids, an order that holds none
    of the seller's products is never changed; the update changes no
    order's id, customer, items, total or date; the only order that can
    change is the one with the given id, and only its status, set to the
    requested one. Every refusal (no status, unknown order, not the
    seller's) leaves the orders as they were. *)
Theorem update_order_guard (q_status : option string) (orderId : nat)
  (orders : list Orders.Order) (products : list Products.Product) (seller : Seller) :
  NoDup (map Orders.order_id orders) ->
  let ids := Products.seller_product_ids products seller in
  let res := Orders.update_order q_status orderId orders products seller in
  (forall x, In x orders -> existsb (Orders.owned ids) (Orders.order_items x) = false ->
     In x (snd res))
  /\ map (fun x => (Orders.order_id x, Orders.order_userId x, Orders.order_items x,
                    Orders.order_totalAmount x, Orders.order_createdAt x)) (snd res)
     = map (fun x => (Orders.order_id x, Orders.order_userId x, Orders.order_items x,
                      Orders.order_totalAmount x, Orders.order_createdAt x)) orders
  /\ (forall x, In x (snd res) -> In x orders \/
        (Orders.order_id x = orderId /\ Orders.order_status x = Signup.get q_status))
  /\ (res_code (fst res) <> 200 -> snd res = orders).
Proof.
  intros Hnd ids res. unfold res, Orders.update_order. fold ids.
  destruct (negb (truthy_str q_status)).
  { simpl. split; [|split; [|split]]; auto. }
  destruct (find (fun o => Nat.eqb (Orders.order_id o) orderId) orders) as [o|] eqn:Hf.
  2: { simpl. split; [|split; [|split]]; auto. }
  apply find_some in Hf. destruct Hf as [Ho Hoid]. apply Nat.eqb_eq in Hoid.
  destruct (negb (existsb (Orders.owned ids) (Orders.order_items o))) eqn:Hex.
  { simpl. split; [|split; [|split]]; auto. }
  apply negb_false_iff in Hex. cbv zeta. simpl. split; [|split; [|split]].
  - intros x Hx Hno. apply in_map_iff. exists x. split; [|exact Hx].
    destruct (Nat.eqb_spec (Orders.order_id x) orderId) as [E|]; [|reflexivity].
    rewrite <- Hoid in E. rewrite (NoDup_map_inj_in _ _ x o Hnd Hx Ho E) in Hno.
    congruence.
  - rewrite map_map. apply map_ext_in. intros x Hx.
    destruct (Nat.eqb_spec (Orders.order_id x) orderId) as [E|]; [|reflexivity].
    rewrite <- Hoid in E. rewrite (NoDup_map_inj_in _ _ x o Hnd Hx Ho E). reflexivity.
  - intros x Hx. apply in_map_iff in Hx. destruct Hx as [y [<- Hy]].
    destruct (Nat.eqb_spec (Orders.order_id y) orderId); [right; simpl; auto|left; exact Hy].
  - intro H. exfalso. apply H. reflexivity.
Qed.

(** ** Admin listings *)

Lemma pending_approvals_mem (db : Signup.DB) (x : Seller) :
  In x (AdminQueries.pending_approvals db) <-> In x db /\ x.(status) = "pending".
Proof.
  set (le := fun a b : Seller => a.(createdAt) <=? b.(createdAt)).
  unfold AdminQueries.pending_approvals. fold le. split.
  - intro H. apply (Permutation_in _ (sort_by_perm le _)) in H.
    apply filter_In in H. destruct H as [H1 H2]. split; [exact H1|]. now apply String.eqb_eq.
  - intros [H1 H2]. apply (Permutation_in _ (Permutation_sym (sort_by_perm le _))).
    apply filter_In. split; [exact H1|]. now apply String.eqb_eq.
Qed.

(** GET /pending-approvals lists exactly the pending sellers of the
    collection, oldest first, each once as stored. *)
Theorem pending_approvals_listing (db : Signup.DB) :
  (forall x, In x (AdminQueries.pending_approvals db) <-> In x db /\ x.(status) = "pending")
  /\ Sorted (fun a b => a.(createdAt) <= b.(createdAt)) (AdminQueries.pending_approvals db)
  /\ Permutation (AdminQueries.pending_approvals db)
       (filter (fun s => String.eqb s.(status) "pending") db).
Proof.
  set (le := fun a b : Seller => a.(createdAt) <=? b.(createdAt)).
  split; [|split].
  - apply pending_approvals_mem.
  - unfold AdminQueries.pending_approvals. fold le.
    assert (Hs := sort_by_sorted le (fun a b H => proj2 (Z.leb_le _ _)
                   (Z.lt_le_incl _ _ (proj1 (Z.leb_gt _ _) H)))
                   (filter (fun s => String.eqb s.(status) "pending") db)).
    replace (sort_by le _) with (map (fun x => x) (sort_by le
              (filter (fun s => String.eqb s.(status) "pending") db))) by apply map_id.
    apply (Sorted_map_rel (fun a b => le a b = true)
             (fun a b : Seller => a.(createdAt) <= b.(createdAt)) (fun x => x));
      [intros a b H; exact (proj1 (Z.leb_le _ _) H)|exact Hs].
  - apply sort_by_perm.
Qed.

Lemma admin_saved_id_status (a : Admin.AdminAction) (s s' : Seller) (now : Z)
  (env : Notify.MailEnv) (p : Notify.Provider) :
  snd (Admin.run_admin a (Some s) now env p) = Some s' ->
  s'.(_id) = s.(_id) /\ s'.(status) <> "pending".
Proof.
  destruct a as [|reason|ns]; simpl.
  - unfold Admin.approve.
    destruct (Notify.result (Notify.sendApprovalEmail env p)); intro H; injection H as <-;
      split; (reflexivity || discriminate).
  - unfold Admin.reject. destruct (truthy_str reason); simpl; [|discriminate].
    destruct (Notify.result (Notify.sendRejectionEmail env p)); intro H; injection H as <-;
      split; (reflexivity || discriminate).
  - unfold Admin.set_seller_status. destruct (Admin.valid_new_status ns) eqn:Hv;
      simpl; [|discriminate].
    intro H; injection H as <-. split; [reflexivity|]. simpl.
    destruct (valid_new_status_cases ns Hv) as [ -> | [ -> | -> ] ]; simpl; discriminate.
Qed.

(** An admin decision that saves a seller (approve, reject, or a status
    change) takes that seller off the pending list and leaves every other
    pending seller on it. *)
Theorem pending_after_admin_action (db : Signup.DB) (a : Admin.AdminAction) (s s' : Seller)
  (now : Z) (env : Notify.MailEnv) (p : Notify.Provider) :
  snd (Admin.run_admin a (Some s) now env p) = Some s' ->
  forall x, In x (AdminQueries.pending_approvals (Signup.db_replace db s'))
            <-> In x (AdminQueries.pending_approvals db) /\ x.(_id) <> s.(_id).
Proof.
  intros H x. destruct (admin_saved_id_status a s s' now env p H) as [Hid Hst].
  rewrite !pending_approvals_mem. unfold Signup.db_replace. rewrite in_map_iff. split.
  - intros [[y [Hy Hyin]] Hxs]. subst x.
    destruct (Nat.eqb_spec (_id y) (_id s')) as [E|E].
    + contradiction.
    + rewrite <- Hid. auto.
  - intros [[Hx Hxs] Hxid]. split; [|exact Hxs]. exists x. split; [|exact Hx].
    rewrite Hid. destruct (Nat.eqb_spec (_id x) (_id s)); [contradiction|reflexivity].
Qed.

(** ** The properties on concrete documents *)

Lemma retryWithBackoff_delays_witness :
  (1 <= 3)%nat
  /\ Notify.delays (Notify.retryWithBackoff Scenario.flaky_provider 3 1000) = [1000; 2000].
Proof.
  split; [lia|].
  pose proof (retryWithBackoff_delays Scenario.flaky_provider 3 1000 ltac:(lia)) as H.
  cbv zeta in H. rewrite H. vm_compute. reflexivity.
Defined.

Lemma generateOTP_six_digits_witness :
  0 <= 23456 < 900000 /\ six_digit_code (Otp.generateOTP 23456) = true.
Proof.
  split; [lia|]. apply generateOTP_six_digits. lia.
Defined.

Lemma login_then_gate_witness :
  Scenario.registered_seller.(status) = "pending"
  /\ res_code (SellerRoutes.login Scenario.demo_compare Scenario.demo_jwt_sign
                 [Scenario.registered_seller] (Some "asha@example.com") (Some "secret1")) = 200
  /\ fst (Gate.guarded Scenario.demo_verify (fun s => (json 200 "", Some s))
            (Some ("Bearer " ++ Scenario.demo_jwt_sign 1)) [Scenario.registered_seller])
     = gate_403 "pending".
Proof.
  destruct (login_then_gate Scenario.demo_compare Scenario.demo_jwt_sign Scenario.demo_verify
              [Scenario.registered_seller] "asha@example.com" "secret1" Scenario.registered_seller
              ltac:(repeat constructor; intros [])
              ltac:(vm_compute; reflexivity)
              ltac:(discriminate) ltac:(discriminate)
              ltac:(vm_compute; reflexivity)
              ltac:(vm_compute; discriminate)
              ltac:(vm_compute; reflexivity)
              ltac:(vm_compute; reflexivity)
              ltac:(left; reflexivity)) as [Hl [Hg _]].
  split; [reflexivity|]. split.
  - rewrite Hl. reflexivity.
  - rewrite Hg. reflexivity.
Defined.

Lemma admin_decision_then_gate_witness :
  exists s',
    snd (Admin.approve (Some Scenario.sample_seller) 9 Scenario.configured_env
           Scenario.refusing_provider) = Some s'
    /\ Gate.requireApprovedSeller Scenario.demo_verify
         (Some ("Bearer " ++ Scenario.demo_jwt_sign 1))
         (Signup.db_replace [Scenario.sample_seller; Scenario.second_seller] s')
       = Gate.Next s'.
Proof.
  destruct (admin_decision_then_gate Scenario.demo_verify Scenario.demo_jwt_sign
              [Scenario.sample_seller; Scenario.second_seller] Scenario.sample_seller 9
              Scenario.configured_env Scenario.refusing_provider
              ltac:(left; reflexivity)
              ltac:(vm_compute; discriminate)
              ltac:(vm_compute; reflexivity)
              ltac:(vm_compute; reflexivity)) as [Ha _].
  eexists. split; [reflexivity|]. apply Ha. reflexivity.
Defined.

Lemma signup_keeps_uniqueness_witness :
  ~ In 2%nat (map _id [Scenario.sample_seller])
  /\ NoDup (map email (snd (Signup.signup Scenario.demo_hash Scenario.demo_jwt_sign
                              [Scenario.sample_seller] Scenario.signup_request 2 9 23456
                              Scenario.configured_env Scenario.refusing_provider))).
Proof.
  assert (Hf : ~ In 2%nat (map _id [Scenario.sample_seller])) by (simpl; lia).
  split; [exact Hf|].
  destruct (signup_keeps_uniqueness Scenario.demo_hash Scenario.demo_jwt_sign
              [Scenario.sample_seller] Scenario.signup_request 2 9 23456
              Scenario.configured_env Scenario.refusing_provider Hf
              ltac:(repeat constructor; intros [])
              ltac:(repeat constructor; intros [])
              ltac:(repeat constructor; intros [])
              ltac:(constructor; [vm_compute; reflexivity|constructor]))
    as [_ [He _]].
  exact He.
Defined.

Lemma product_routes_respect_ownership_witness :
  NoDup (map Products.p_id Scenario.demo_products)
  /\ In (Scenario.demo_product 11 (Some 2%nat))
       (snd (fst (Products.delete_product 11 Scenario.demo_products
                    (Scenario.approved_seller 0 []) 9)))
  /\ In (Scenario.demo_product 12 None)
       (snd (Products.update_product 12 (Some "Desk") None (Some 900) None None None None
               Scenario.demo_products (Scenario.approved_seller 0 []))).
Proof.
  assert (Hnd : NoDup (map Products.p_id Scenario.demo_products))
    by (repeat constructor; simpl; lia).
  destruct (product_routes_respect_ownership 11 None None None None None None None
              Scenario.demo_products (Scenario.approved_seller 0 []) 9 Hnd) as [Hd _].
  destruct (product_routes_respect_ownership 12 (Some "Desk") None (Some 900) None None None
              None Scenario.demo_products (Scenario.approved_seller 0 []) 9 Hnd) as [Hu _].
  split; [exact Hnd|split].
  - apply (Hd _ ltac:(right; left; reflexivity) ltac:(discriminate)).
  - apply (Hu _ ltac:(right; right; left; reflexivity) ltac:(discriminate)).
Defined.

Lemma update_product_zero_price_zero_stock_witness :
  Products.findProduct Scenario.demo_products 10 = Some (Scenario.demo_product 10 (Some 1%nat))
  /\ exists p', snd (Products.update_product 10 None None (Some 0) (Some 0) None None None
                       Scenario.demo_products (Scenario.approved_seller 0 []))
                = map (fun x => if Nat.eqb x.(Products.p_id) 10 then p' else x)
                    Scenario.demo_products
     /\ p'.(Products.p_price) = 500 /\ p'.(Products.p_stock) = 0.
Proof.
  assert (Hf : Products.findProduct Scenario.demo_products 10
               = Some (Scenario.demo_product 10 (Some 1%nat))) by reflexivity.
  split; [exact Hf|].
  destruct (update_product_zero_price_zero_stock 10 Scenario.demo_products
              (Scenario.approved_seller 0 []) _ Hf eq_refl eq_refl)
    as [p' [Hu [Hp [Hs _]]]].
  exists p'. rewrite Hu. split; [reflexivity|]. split; [exact Hp|exact Hs].
Defined.

Lemma update_order_guard_witness :
  NoDup (map Orders.order_id Scenario.demo_orders)
  /\ res_code (fst (Orders.update_order (Some "shipped") 5 Scenario.demo_orders
                      Scenario.demo_products (Scenario.approved_seller 0 []))) = 200
  /\ In (Orders.mkOrder 6 8 [Orders.mkItem 11 2] 900 "pending" 4)
       (snd (Orders.update_order (Some "shipped") 5 Scenario.demo_orders
               Scenario.demo_products (Scenario.approved_seller 0 []))).
Proof.
  assert (Hnd : NoDup (map Orders.order_id Scenario.demo_orders))
    by (repeat constructor; simpl; lia).
  destruct (update_order_guard (Some "shipped") 5 Scenario.demo_orders Scenario.demo_products
              (Scenario.approved_seller 0 []) Hnd) as [Hk _].
  split; [exact Hnd|split; [reflexivity|]].
  apply Hk; [right; left; reflexivity|reflexivity].
Defined.

Lemma pending_after_admin_action_witness :
  exists s',
    snd (Admin.run_admin Admin.Approve (Some Scenario.sample_seller) 9
           Scenario.configured_env Scenario.refusing_provider) = Some s'
    /\ In Scenario.second_seller
         (AdminQueries.pending_approvals
            (Signup.db_replace [Scenario.sample_seller; Scenario.second_seller] s'))
    /\ ~ In s' (AdminQueries.pending_approvals
                 (Signup.db_replace [Scenario.sample_seller; Scenario.second_seller] s')).
Proof.
  eexists. split; [reflexivity|].
  pose proof (pending_after_admin_action [Scenario.sample_seller; Scenario.second_seller]
                Admin.Approve Scenario.sample_seller _ 9 Scenario.configured_env
                Scenario.refusing_provider eq_refl) as H.
  split.
  - apply H. split; [vm_compute; auto|discriminate].
  - rewrite H. intros [_ Hid]. apply Hid. reflexivity.
Defined.

Lemma retryWithBackoff_attempts_witness :
  (1 <= 3)%nat
  /\ exists k, (1 <= k <= 3)%nat
     /\ Notify.outcomes (Notify.retryWithBackoff Scenario.flaky_provider 3 1000)
        = map Scenario.flaky_provider (seq 1 k).
Proof.
  split; [lia|].
  pose proof (retryWithBackoff_attempts Scenario.flaky_provider 3 1000) as H.
  cbv zeta in H. destruct H as [_ H]. destruct (H ltac:(lia)) as [k [Hk [Ho _]]].
  exists k. split; [exact Hk|exact Ho].
Defined.

Lemma mail_config_errors_witness :
  Notify.result (Notify.sendApprovalEmail (Notify.mkEnv None true) Scenario.flaky_provider)
    = Notify.Thrown Notify.missing_admin_email
  /\ Notify.result (Notify.sendOTPToEmail (Notify.mkEnv (Some "admin@expressbuy.example") false)
                      Scenario.flaky_provider)
    = Notify.Thrown Notify.missing_oauth.
Proof.
  destruct (mail_config_errors (Notify.mkEnv None true) Scenario.flaky_provider) as [Ha _].
  destruct (mail_config_errors (Notify.mkEnv (Some "admin@expressbuy.example") false)
              Scenario.flaky_provider) as [_ Ho].
  destruct (Ha eq_refl) as [H1 _]. destruct (Ho eq_refl eq_refl) as [_ H2].
  rewrite H1, H2. split; reflexivity.
Defined.

(** ** Header parsing and the transient-error test *)

Lemma split_space_word (w tok : string) :
  no_space w = true -> Gate.split_space (w ++ " " ++ tok) = w :: Gate.split_space tok.
Proof.
  induction w as [|c rest IH]; intro H; [reflexivity|].
  unfold no_space in H. simpl in H. apply andb_prop in H. destruct H as [Hc Hr].
  pose proof (IH Hr) as E. simpl in E |- *. apply negb_true_iff in Hc. rewrite Hc, E.
  reflexivity.
Qed.

(** [authorization.split(" ")[1]] is the second space-separated word, and
    the first one is never looked at: any scheme word (["Bearer"],
    ["Basic"], ...) followed by a token passes the token on. A header
    without a space, or no header at all, is refused with 401 "No token
    provided" before [jwt.verify] is called. *)
Theorem bearer_header_parsing :
  (forall w tok, no_space w = true -> no_space tok = true ->
     Gate.bearer_token (Some (w ++ " " ++ tok)) = Some tok)
  /\ (forall verify h db, no_space h = true ->
       Gate.requireApprovedSeller verify (Some h) db = Gate.Refused (json 401 "No token provided"))
  /\ (forall verify db,
       Gate.requireApprovedSeller verify None db = Gate.Refused (json 401 "No token provided")).
Proof.
  split; [|split].
  - intros w tok Hw Ht. unfold Gate.bearer_token.
    rewrite (split_space_word w tok Hw), (split_space_no_space tok Ht). reflexivity.
  - intros verify h db Hh. unfold Gate.requireApprovedSeller, Gate.bearer_token.
    rewrite (split_space_no_space h Hh). reflexivity.
  - intros verify db. reflexivity.
Qed.

Lemma prefix_iff (n h : string) : String.prefix n h = true <-> exists b, h = (n ++ b)%string.
Proof.
  revert h. induction n as [|c n IH]; intro h.
  - split; [intros _; exists h; reflexivity|intros _; destruct h; reflexivity].
  - destruct h as [|d h]; simpl.
    + split; [discriminate|intros [b Hb]; discriminate Hb].
    + destruct (Ascii.ascii_dec c d) as [<-|Hcd].
      * rewrite IH. split; intros [b Hb]; exists b; [now rewrite Hb|now injection Hb].
      * split; [discriminate|intros [b Hb]; injection Hb as E _; congruence].
Qed.

Lemma includes_iff (h n : string) :
  Notify.includes h n = true <-> exists a b, h = (a ++ n ++ b)%string.
Proof.
  induction h as [|c rest IH].
  - cbn [Notify.includes]. rewrite orb_false_r, prefix_iff. split.
    + intros [b Hb]. exists EmptyString, b. exact Hb.
    + intros [a [b Hab]]. destruct a; [exists b; exact Hab|discriminate Hab].
  - cbn [Notify.includes]. rewrite orb_true_iff, prefix_iff, IH. split.
    + intros [[b Hb]|[a [b Hab]]].
      * exists EmptyString, b. exact Hb.
      * exists (String c a), b. rewrite Hab. reflexivity.
    + intros [a [b Hab]]. destruct a as [|c' a].
      * left. exists b. exact Hab.
      * right. injection Hab as _ Hr. exists a, b. exact Hr.
Qed.

(** [isNetworkError] holds exactly when the message contains one of
    "ETIMEDOUT", "ECONNREFUSED", "ENOTFOUND", "socket hang up" anywhere,
    or the code is exactly one of "ETIMEDOUT", "ECONNREFUSED",
    "ENOTFOUND". *)
Theorem isNetworkError_iff (e : Notify.ProviderError) :
  Notify.isNetworkError e = true
  <-> (exists k a b, In k ["ETIMEDOUT"; "ECONNREFUSED"; "ENOTFOUND"; "socket hang up"]
                     /\ Notify.err_message e = (a ++ k ++ b)%string)
      \/ In (Notify.err_code e) ["ETIMEDOUT"; "ECONNREFUSED"; "ENOTFOUND"].
Proof.
  unfold Notify.isNetworkError. rewrite !orb_true_iff, !includes_iff, !String.eqb_eq.
  split.
  - intros [[[[[[H|H]|H]|H]|H]|H]|H].
    + left. destruct H as [a [b H]]. exists "ETIMEDOUT"%string, a, b. split; [simpl; auto|exact H].
    + left. destruct H as [a [b H]]. exists "ECONNREFUSED"%string, a, b. split; [simpl; auto|exact H].
    + left. destruct H as [a [b H]]. exists "ENOTFOUND"%string, a, b. split; [simpl; auto|exact H].
    + left. destruct H as [a [b H]]. exists "socket hang up"%string, a, b. split; [simpl; auto|exact H].
    + right. simpl; auto.
    + right. simpl; auto.
    + right. simpl; auto.
  - intros [[k [a [b [Hk H]]]]|H].
    + simpl in Hk. destruct Hk as [<-|[<-|[<-|[<-|[]]]]].
      * do 6 left. exists a, b. exact H.
      * do 5 left. right. exists a, b. exact H.
      * do 4 left. right. exists a, b. exact H.
      * do 3 left. right. exists a, b. exact H.
    + simpl in H. destruct H as [H|[H|[H|[]]]].
      * do 2 left. right. now symmetry.
      * left. right. now symmetry.
      * right. now symmetry.
Qed.

Lemma bearer_header_parsing_witness :
  Gate.bearer_token (Some "Basic jwt.1") = Some "jwt.1"%string
  /\ Gate.requireApprovedSeller Scenario.demo_verify (Some "jwt.1") [Scenario.sample_seller]
     = Gate.Refused (json 401 "No token provided").
Proof.
  destruct bearer_header_parsing as [Hb [Hn _]].
  split.
  - apply (Hb "Basic" "jwt.1"); reflexivity.
  - apply Hn. reflexivity.
Defined.
